(** * Manifests asset of the installer: a shallow embedding of
    [pkg/asset/manifests/operators.go] and the properties of its
    generate / load / redact / render paths.

    Go strings are byte sequences and are modelled by [string] (a list of
    8-bit [ascii]); [[]byte] values are modelled by [string] as well, the
    conversions [string(b)] and [[]byte(s)] being copies.  A Go [error]
    result is an [option error] ([None] is [nil]); a panic is an explicit
    outcome. *)

From Stdlib Require Import String Ascii ZArith List Lia Bool.
From Stdlib Require Import Sorting.Sorted Sorting.Permutation.
From stdpp Require Import gmap strings list.

Local Open Scope Z_scope.
Local Open Scope list_scope.

(** ** Errors, panics and outcomes *)

(** [errors.New] / [errors.Wrap] of github.com/pkg/errors: an error is a
    message, possibly wrapping a cause. *)
Inductive error : Type :=
| ErrNew (msg : string)
| ErrWrap (cause : error) (msg : string).

(** The value carried by a Go panic: [panic(err)] or a runtime / library
    message. *)
Inductive panic_value : Type :=
| PanicError (e : error)
| PanicMessage (msg : string).

(** What running a Go function yields: a returned value or a panic that
    unwinds the caller. *)
Inductive outcome (A : Type) : Type :=
| Returns (a : A)
| Panics (p : panic_value).
Arguments Returns {A} a.
Arguments Panics {A} p.

#[global] Instance outcome_ret : MRet outcome := fun A a => Returns a.
#[global] Instance outcome_bind : MBind outcome := fun A B k o =>
  match o with
  | Returns a => k a
  | Panics p => Panics p
  end.

(** [(T, error)] results of the collaborators. *)
Inductive result (A : Type) : Type :=
| Ok (a : A)
| Err (e : error).
Arguments Ok {A} a.
Arguments Err {A} e.

(** ** The [strings] package, as far as this file calls it *)

Module strings.

Definition LF : ascii := "010"%char.
Definition newline : string := String LF EmptyString.
Definition space : string := " "%string.

Fixpoint repeat_nat (s : string) (n : nat) : string :=
  match n with
  | O => EmptyString
  | S n' => s +:+ repeat_nat s n'
  end.

(** [strings.Repeat]: panics when [count] is negative. *)
Definition Repeat (s : string) (count : Z) : outcome string :=
  if count <? 0 then Panics (PanicMessage "strings: negative Repeat count")
  else Returns (repeat_nat s (Z.to_nat count)).

(** Number of non-overlapping instances of a non-empty [old] in [s],
    scanning from the left ([strings.Count]); [skip] bytes of a match just
    found are stepped over. *)
Fixpoint count_from (skip : nat) (s old : string) : nat :=
  match s with
  | EmptyString => O
  | String _ s' =>
      match skip with
      | S k => count_from k s' old
      | O => if String.prefix old s
             then S (count_from (String.length old - 1) s' old)
             else count_from O s' old
      end
  end.

Definition Count (s old : string) : nat := count_from O s old.

(** The copy loop of [strings.Replace]: the first [budget] non-overlapping
    instances of [old], leftmost first, are replaced by [new]. *)
Fixpoint replace_from (budget skip : nat) (s old new : string) : string :=
  match s with
  | EmptyString => EmptyString
  | String c s' =>
      match skip with
      | S k => replace_from budget k s' old new
      | O =>
          match budget with
          | O => s
          | S b =>
              if String.prefix old s
              then new +:+ replace_from b (String.length old - 1) s' old new
              else String c (replace_from budget O s' old new)
          end
      end
  end.

(** [strings.Replace(s, old, new, n)] for a non-empty [old] (the pattern at
    the only call site is the one-byte string "\n"); [n < 0] lifts the limit
    on the number of replacements. *)
Definition Replace (s old new : string) (n : Z) : string :=
  if String.eqb old new || (n =? 0) then s
  else
    let m := Count s old in
    match m with
    | O => s
    | _ =>
        let n' := if (n <? 0) || (Z.of_nat m <? n) then m else Z.to_nat n in
        replace_from n' O s old new
    end.

(** [strings.HasSuffix] and [strings.TrimSuffix]. *)
Definition HasSuffix (s suffix : string) : bool :=
  (String.length suffix <=? String.length s)%nat
  && String.eqb
       (String.substring (String.length s - String.length suffix)
          (String.length suffix) s)
       suffix.

Definition TrimSuffix (s suffix : string) : string :=
  if HasSuffix s suffix
  then String.substring 0 (String.length s - String.length suffix) s
  else s.

(** [strings.Join]. *)
Definition Join (elems : list string) (sep : string) : string :=
  String.concat sep elems.

End strings.

(** ** Template helper [indent] *)

(** [func indent(indention int, v string) string]: the separator is built
    first, the replacement runs afterwards. *)
Definition indent (indention : Z) (v : string) : outcome string :=
  pad ← strings.Repeat strings.space indention;
  let newline := strings.newline +:+ pad in
  Returns (strings.Replace v strings.newline newline (-1)).

(** The [add] helper of [customTmplFuncs]: addition of two Go [int]s, which
    wraps around at 64 bits. *)
Definition wrap_int (z : Z) : Z := (z + 2 ^ 63) mod 2 ^ 64 - 2 ^ 63.
Definition add (i j : Z) : Z := wrap_int (i + j).

(** Occurrences of the line-break byte in a string. *)
Fixpoint line_breaks (s : string) : nat :=
  match s with
  | EmptyString => O
  | String c s' => (if Ascii.eqb c strings.LF then 1 else 0)%nat + line_breaks s'
  end.

(** The pieces of [s] between its line breaks (one more than the number of
    line breaks). *)
Fixpoint lines (s : string) : list string :=
  match s with
  | EmptyString => [EmptyString]
  | String c s' =>
      if Ascii.eqb c strings.LF then EmptyString :: lines s'
      else match lines s' with
           | [] => [String c EmptyString]
           | l :: ls => String c l :: ls
           end
  end.

(** ** The [path/filepath] package on a slash-separated file system *)

Module filepath.

Definition Separator : ascii := "/"%char.

(** The elements of [path] between separators. *)
Fixpoint split (path : string) : list string :=
  match path with
  | EmptyString => [EmptyString]
  | String c path' =>
      if Ascii.eqb c Separator then EmptyString :: split path'
      else match split path' with
           | [] => [String c EmptyString]
           | e :: es => String c e :: es
           end
  end.

(** One step of [Clean] over the elements kept so far (last one first):
    empty and [.] elements are dropped, [..] removes the element before it,
    is dropped at the root and is kept otherwise. *)
Definition clean_step (rooted : bool) (kept : list string) (e : string)
  : list string :=
  if String.eqb e "" || String.eqb e "." then kept
  else if String.eqb e ".." then
    match kept with
    | k :: kept' => if String.eqb k ".." then e :: kept else kept'
    | [] => if rooted then kept else [e]
    end
  else e :: kept.

(** [filepath.Clean]: the shortest lexically equivalent path. *)
Definition Clean (path : string) : string :=
  if String.eqb path "" then "."%string
  else
    let rooted := String.prefix "/" path in
    let kept := rev (fold_left (clean_step rooted) (split path) []) in
    let out := ((if rooted then "/" else "") +:+ String.concat "/" kept)%string in
    if String.eqb out "" then "."%string else out.

(** [filepath.Join]: leading empty elements are skipped, the rest is joined
    with the separator and cleaned. *)
Fixpoint Join (elem : list string) : string :=
  match elem with
  | [] => EmptyString
  | e :: elem' =>
      if String.eqb e "" then Join elem'
      else Clean (strings.Join elem "/")
  end.

(** The string without its trailing separators. *)
Fixpoint strip_trailing (path : string) : string :=
  match path with
  | EmptyString => EmptyString
  | String c path' =>
      match strip_trailing path' with
      | EmptyString => if Ascii.eqb c Separator then EmptyString
                       else String c EmptyString
      | rest => String c rest
      end
  end.

(** [filepath.Base]: the last element of the path. *)
Definition Base (path : string) : string :=
  if String.eqb path "" then "."%string
  else
    let path := strip_trailing path in
    let path := List.last (split path) EmptyString in
    if String.eqb path "" then String Separator EmptyString else path.

(** [filepath.Match] for patterns made of literal bytes, [?] and [*]; a
    star stands for any run of non-separator bytes.  Character classes and
    escapes do not occur in the patterns of this package. *)
Fixpoint Match (pattern name : string) : bool :=
  match pattern with
  | EmptyString => String.eqb name ""
  | String p pattern' =>
      if Ascii.eqb p "*" then
        (fix star (n : string) : bool :=
           Match pattern' n
           || match n with
              | EmptyString => false
              | String c n' =>
                  if Ascii.eqb c Separator then false else star n'
              end) name
      else
        match name with
        | EmptyString => false
        | String c name' =>
            (Ascii.eqb p c || (Ascii.eqb p "?" && negb (Ascii.eqb c Separator)))
            && Match pattern' name'
        end
  end.

End filepath.

(** ** Files of an asset *)

Module asset.

(** [asset.File]. *)
Record File : Type := mkFile { Filename : string; Data : string }.

#[global] Instance File_eq_dec : EqDecision File.
Proof. solve_decision. Defined.

(** A file comes no later than another when its name is bytewise
    lexicographically smaller or equal. *)
Definition name_le (f g : File) : Prop :=
  String.leb (Filename f) (Filename g) = true.

Fixpoint insert_file (f : File) (files : list File) : list File :=
  match files with
  | [] => [f]
  | g :: files' =>
      if String.leb (Filename f) (Filename g) then f :: files
      else g :: insert_file f files'
  end.

(** Modelled from the spec: [asset.SortFiles] is declared outside the
    sources at hand; the spec has it sort the file list lexicographically by
    filename.  The slice is sorted in place, here the sorted list is the
    result. *)
Fixpoint SortFiles (files : list File) : list File :=
  match files with
  | [] => []
  | f :: files' => insert_file f (SortFiles files')
  end.

(** [asset.FileFetcher]: [FetchByPattern] yields the matching files or an
    error. *)
Definition FileFetcher : Type := string -> result (list File).

End asset.

Import asset.


(** ** Encodings *)

Module base64.

(** The 64 digits of [base64.StdEncoding]. *)
Definition encodeStd : string :=
  "ABCDEFGHIJKLMNOPQRSTUVWXYZabcdefghijklmnopqrstuvwxyz0123456789+/"%string.

Definition StdPadding : ascii := "="%char.

(** A 6-bit group, most significant bit first. *)
Definition sextet : Type := (bool * bool * bool * bool * bool * bool)%type.

Definition sextet_value (s : sextet) : nat :=
  let '(b5, b4, b3, b2, b1, b0) := s in
  (Nat.b2n b5 * 32 + Nat.b2n b4 * 16 + Nat.b2n b3 * 8
   + Nat.b2n b2 * 4 + Nat.b2n b1 * 2 + Nat.b2n b0)%nat.

Definition digit (s : sextet) : ascii :=
  match String.get (sextet_value s) encodeStd with
  | Some c => c
  | None => StdPadding
  end.

(** [EncodeToString]: three source bytes give four digits; a final group of
    one or two bytes is padded with [=]. *)
Fixpoint EncodeToString (src : string) : string :=
  match src with
  | EmptyString => EmptyString
  | String (Ascii a0 a1 a2 a3 a4 a5 a6 a7) EmptyString =>
      String (digit (a7, a6, a5, a4, a3, a2))
        (String (digit (a1, a0, false, false, false, false))
           (String StdPadding (String StdPadding EmptyString)))
  | String (Ascii a0 a1 a2 a3 a4 a5 a6 a7)
      (String (Ascii b0 b1 b2 b3 b4 b5 b6 b7) EmptyString) =>
      String (digit (a7, a6, a5, a4, a3, a2))
        (String (digit (a1, a0, b7, b6, b5, b4))
           (String (digit (b3, b2, b1, b0, false, false))
              (String StdPadding EmptyString)))
  | String (Ascii a0 a1 a2 a3 a4 a5 a6 a7)
      (String (Ascii b0 b1 b2 b3 b4 b5 b6 b7)
         (String (Ascii c0 c1 c2 c3 c4 c5 c6 c7) rest)) =>
      String (digit (a7, a6, a5, a4, a3, a2))
        (String (digit (a1, a0, b7, b6, b5, b4))
           (String (digit (b3, b2, b1, b0, c7, c6))
              (String (digit (c5, c4, c3, c2, c1, c0))
                 (EncodeToString rest))))
  end.

(** The inverse reading of one digit. *)
Definition sextet_of_nat (n : nat) : sextet :=
  (Nat.testbit n 5, Nat.testbit n 4, Nat.testbit n 3,
   Nat.testbit n 2, Nat.testbit n 1, Nat.testbit n 0).

Fixpoint position (c : ascii) (digits : string) : option nat :=
  match digits with
  | EmptyString => None
  | String d digits' =>
      if Ascii.eqb c d then Some O else S <$> position c digits'
  end.

Definition undigit (c : ascii) : option sextet :=
  sextet_of_nat <$> position c encodeStd.

(** [DecodeString] on padded input; the package under study only encodes,
    decoding serves to state what an encoded field still carries. *)
Fixpoint DecodeString (s : string) : option string :=
  match s with
  | EmptyString => Some EmptyString
  | String d1 (String d2 (String d3 (String d4 rest))) =>
      match undigit d1, undigit d2 with
      | Some (a7, a6, a5, a4, a3, a2), Some (a1, a0, b7, b6, b5, b4) =>
          let a := Ascii a0 a1 a2 a3 a4 a5 a6 a7 in
          match undigit d3, undigit d4 with
          | Some (b3, b2, b1, b0, c7, c6), Some (c5, c4, c3, c2, c1, c0) =>
              String a
                <$> (String (Ascii b0 b1 b2 b3 b4 b5 b6 b7)
                       <$> (String (Ascii c0 c1 c2 c3 c4 c5 c6 c7)
                              <$> DecodeString rest))
          | Some (b3, b2, b1, b0, _, _), None =>
              if Ascii.eqb d4 StdPadding && String.eqb rest ""
              then Some (String a
                           (String (Ascii b0 b1 b2 b3 b4 b5 b6 b7) EmptyString))
              else None
          | None, _ =>
              if Ascii.eqb d3 StdPadding && Ascii.eqb d4 StdPadding
                 && String.eqb rest ""
              then Some (String a EmptyString)
              else None
          end
      | _, _ => None
      end
  | _ => None
  end.

End base64.

Module dataurl.

(** Modelled from the spec: the vendored data-URL package is not among the
    sources at hand.  The spec asks for a single-line data URL in an
    ASCII-safe percent encoding: letters, digits and the unreserved marks
    (hyphen, underscore, dot, exclamation mark, tilde, asterisk, apostrophe
    and the two parentheses) stand for themselves, every other byte is
    written as a percent sign and two upper-case hexadecimal digits. *)
Definition isUnreserved (c : ascii) : bool :=
  let n := nat_of_ascii c in
  ((97 <=? n) && (n <=? 122) || (65 <=? n) && (n <=? 90)
   || (48 <=? n) && (n <=? 57)
   || (n =? 45) || (n =? 95) || (n =? 46) || (n =? 33) || (n =? 126)
   || (n =? 42) || (n =? 39) || (n =? 40) || (n =? 41))%nat.

Definition hex_digit (n : nat) : ascii :=
  match String.get n "0123456789ABCDEF" with
  | Some c => c
  | None => "0"%char
  end.

Fixpoint Escape (data : string) : string :=
  match data with
  | EmptyString => EmptyString
  | String c data' =>
      if isUnreserved c then String c (Escape data')
      else
        let n := nat_of_ascii c in
        String "%" (String (hex_digit (n / 16))
                      (String (hex_digit (n mod 16)) (Escape data')))
  end.

Definition hex_value (c : ascii) : option nat :=
  base64.position c "0123456789ABCDEF".

(** The reading back of an escaped payload. *)
Fixpoint Unescape (s : string) : option string :=
  match s with
  | EmptyString => Some EmptyString
  | String c s' =>
      if Ascii.eqb c "%" then
        match s' with
        | String h (String l rest) =>
            match hex_value h, hex_value l with
            | Some hv, Some lv =>
                String (ascii_of_nat (hv * 16 + lv)) <$> Unescape rest
            | _, _ => None
            end
        | _ => None
        end
      else String c <$> Unescape s'
  end.

(** Modelled from the spec: [dataurl.New(data, mediatype)] with its
    [Encoding] set to ASCII, written out by [String]: the scheme, the media
    type, a comma and the escaped payload. *)
Definition String_ASCII (data mediatype : string) : string :=
  ("data:" +:+ mediatype +:+ "," +:+ Escape data)%string.

End dataurl.

(** ** The install configuration *)

(** [types.InstallConfig] and its platform records are declared outside the
    sources at hand.  The fields that [operators.go] names are spelled out;
    everything else a record carries is kept as one opaque component. *)
Class ConfigShape : Type := {
  InstallConfigRest : Type;
  PlatformRest : Type;
  VSphereRest : Type;
}.

(** [types.ImageContentSource]. *)
Record ImageContentSource : Type := mkICS {
  Source : string;
  Mirrors : list string;
}.

(** [types.InternalPublishingStrategy], a string constant. *)
Definition InternalPublishingStrategy : string := "Internal"%string.

(** Addresses of heap-allocated platform records. *)
Abbreviation addr := nat.

Section InstallConfig.
Context `{ConfigShape}.

(** [vsphere.Platform]. *)
Record VSpherePlatform : Type := mkVSphere {
  Username : string;
  Password : string;
  vsphere_rest : VSphereRest;
}.

(** [types.Platform]: [VSphere] is a pointer, [None] standing for [nil]. *)
Record Platform : Type := mkPlatform {
  VSphere : option addr;
  platform_rest : PlatformRest;
}.

(** [types.InstallConfig], a struct value. *)
Record InstallConfig : Type := mkInstallConfig {
  PullSecret : string;
  Publish : string;
  ImageContentSources : list ImageContentSource;
  Platform_ : Platform;
  config_rest : InstallConfigRest;
}.

(** The configuration with its pointers followed: what a serializer
    reads. *)
Record PlatformValue : Type := mkPlatformValue {
  VSphereValue : option VSpherePlatform;
  platform_rest_value : PlatformRest;
}.

Record InstallConfigValue : Type := mkInstallConfigValue {
  PullSecretValue : string;
  PublishValue : string;
  ImageContentSourcesValue : list ImageContentSource;
  PlatformValue_ : PlatformValue;
  config_rest_value : InstallConfigRest;
}.

(** Reading a pointer; an address outside the store cannot arise in a Go
    program and is reported as the runtime's invalid-address panic. *)
Definition load (h : gmap addr VSpherePlatform) (a : addr)
  : outcome VSpherePlatform :=
  match h !! a with
  | Some p => Returns p
  | None => Panics (PanicMessage "invalid memory address or nil pointer dereference")
  end.

Definition value_of (h : gmap addr VSpherePlatform) (config : InstallConfig)
  : outcome InstallConfigValue :=
  vs ← match VSphere (Platform_ config) with
       | Some a => p ← load h a; Returns (Some p)
       | None => Returns None
       end;
  Returns
    (mkInstallConfigValue (PullSecret config) (Publish config)
       (ImageContentSources config)
       (mkPlatformValue vs (platform_rest (Platform_ config)))
       (config_rest config)).

End InstallConfig.

(** ** Declarations of the package outside [operators.go] *)

(** Modelled from the spec: [configurationObject] is declared outside the
    sources at hand; the spec describes a wrapper carrying apiVersion, kind,
    metadata (name and namespace) and a string-keyed, string-valued data
    map. *)
Record configurationObject : Type := mkConfigurationObject {
  APIVersion : string;
  Kind : string;
  MetadataName : string;
  MetadataNamespace : string;
  ObjData : gmap string string;
}.

(** The zero value [configurationObject{}]. *)
Definition zero_configurationObject : configurationObject :=
  mkConfigurationObject "" "" "" "" ∅.

(** The type header that [configMap] stamps on its objects is not given by
    the spec and stays a parameter. *)
Class PackageConsts : Type := {
  configMap_APIVersion : string;
  configMap_Kind : string;
}.

(** Modelled from the spec: [configMap(namespace, name, data)] is declared
    outside the sources at hand; it builds the namespaced wrapper around the
    given data. *)
Definition configMap `{PackageConsts} (namespace name : string)
  (data : gmap string string) : configurationObject :=
  mkConfigurationObject configMap_APIVersion configMap_Kind name namespace data.

(** [bootkubeTemplateData], with the fields of the literal in
    [generateBootKubeManifests]. *)
Record bootkubeTemplateData : Type := mkTemplateData {
  CVOClusterID : string;
  EtcdCaBundle : string;
  EtcdMetricCaCert : string;
  EtcdMetricSignerCert : string;
  EtcdMetricSignerClientCert : string;
  EtcdMetricSignerClientKey : string;
  EtcdMetricSignerKey : string;
  EtcdSignerCert : string;
  EtcdSignerClientCert : string;
  EtcdSignerClientKey : string;
  EtcdSignerKey : string;
  McsTLSCert : string;
  McsTLSKey : string;
  PullSecretBase64 : string;
  RootCaCert : string;
  AROWorkerRegistries_ : string;
  AROIngressIP : string;
  AROIngressInternal : bool;
  AROImageRegistryHTTPSecret : string;
  AROImageRegistryAccountName : string;
  AROImageRegistryContainerName : string;
  AROCloudName : string;
}.

(** ** External libraries *)

(** [github.com/ghodss/yaml]: serialization reads a value through its
    pointers; parsing fills an existing object. *)
Class YAML `{ConfigShape} : Type := {
  yaml_Marshal_InstallConfig : InstallConfigValue -> result string;
  yaml_Marshal_object : configurationObject -> result string;
  yaml_Unmarshal_object :
    string -> configurationObject -> result configurationObject;
}.

(** [text/template] with the helpers of [customTmplFuncs] installed:
    parsing a text and executing the parsed template on the bootkube
    context. *)
Class TextTemplate : Type := {
  Template : Type;
  template_Parse : string -> result Template;
  template_Execute : Template -> bootkubeTemplateData -> result string;
}.

(** ** The assets a [Manifests] asset depends on *)

Inductive TLSAsset : Type :=
| RootCA | EtcdSignerCertKey | EtcdCABundle | EtcdSignerClientCertKey
| EtcdMetricCABundle | EtcdMetricSignerCertKey
| EtcdMetricSignerClientCertKey | MCSCertKey.

(** The bundled bootkube templates rendered by
    [generateBootKubeManifests]. *)
Inductive BootkubeAsset : Type :=
| CVOOverrides | EtcdCAConfigMap | EtcdClientSecret | EtcdMetricClientSecret
| EtcdMetricSignerSecret | EtcdMetricServingCAConfigMap | EtcdNamespace
| EtcdService | EtcdServingCAConfigMap | EtcdSignerSecret | KubeCloudConfig
| KubeSystemConfigmapRootCA | MachineConfigServerTLSSecret
| OpenshiftConfigSecretPullSecret | OpenshiftMachineConfigOperator
| KubevirtInfraNamespace | AROWorkerRegistries | AROIngressService
| AROImageRegistry.

(** The collaborating assets whose files are appended unchanged. *)
Inductive ConfigAsset : Type :=
| Ingress | DNS | Networking | Infrastructure | Proxy | Scheduler
| ImageContentSourcePolicy.

Section Parents.
Context `{ConfigShape}.

(** [asset.Parents] as [Generate] reads it: the resolved dependencies,
    together with the store their pointers live in. *)
Record Parents : Type := mkParents {
  store : gmap addr VSpherePlatform;
  installConfig_Config : InstallConfig;
  installConfig_Azure_CloudName : string;
  clusterID_UUID : string;
  tls_Cert : TLSAsset -> string;
  tls_Key : TLSAsset -> string;
  aroDNSConfig_IngressIP : string;
  aroImageRegistryConfig_HTTPSecret : string;
  aroImageRegistryConfig_AccountName : string;
  aroImageRegistryConfig_ContainerName : string;
  bootkube_Files : BootkubeAsset -> list File;
  config_Files : ConfigAsset -> list File;
}.

End Parents.

(** ** [operators.go] *)

Definition manifestDir : string := "manifests"%string.

Definition kubeSysConfigPath : string :=
  filepath.Join [manifestDir; "cluster-config.yaml"%string].

(** [Manifests]: the control object (a pointer, [None] for [nil]) and the
    file list. *)
Record Manifests : Type := mkManifests {
  KubeSysConfig : option configurationObject;
  FileList : list File;
}.

Definition Name (m : Manifests) : string := "Common Manifests"%string.

Definition Files (m : Manifests) : list File := FileList m.

Section Redact.
Context `{Y : YAML}.

(** [redactedInstallConfig]: [config] is the callee's copy of the struct;
    the vSphere record is copied before its credentials are cleared and the
    copy, at a fresh address, replaces the pointer of the local struct only.
    The store after the call is returned next to the result. *)
Definition redactedInstallConfig (h : gmap addr VSpherePlatform)
  (config : InstallConfig)
  : outcome (gmap addr VSpherePlatform * result string) :=
  let config :=
    mkInstallConfig "" (Publish config) (ImageContentSources config)
      (Platform_ config) (config_rest config) in
  '(h, config) ←
    match VSphere (Platform_ config) with
    | Some a =>
        p ← load h a;
        let p := mkVSphere "" (Password p) (vsphere_rest p) in
        let p := mkVSphere (Username p) "" (vsphere_rest p) in
        let a' := fresh (dom h) in
        Returns
          (<[a' := p]> h,
           mkInstallConfig (PullSecret config) (Publish config)
             (ImageContentSources config)
             (mkPlatform (Some a') (platform_rest (Platform_ config)))
             (config_rest config))
    | None => Returns (h, config)
    end;
  v ← value_of h config;
  Returns (h, yaml_Marshal_InstallConfig v).

End Redact.

(** The double-quote byte and the line break of the format strings. *)
Definition dq : string := String "034"%char EmptyString.
Definition nl : string := strings.newline.

(** The three [fmt.Fprintf] calls of [aroWorkerRegistries], each format with
    its [%s] filled in. *)
Definition registries_default_line : string :=
  ("unqualified-search-registries = [" +:+ dq +:+ "registry.access.redhat.com"
   +:+ dq +:+ ", " +:+ dq +:+ "docker.io" +:+ dq +:+ "]" +:+ nl)%string.

Definition registry_block (source : string) : string :=
  (nl +:+ "[[registry]]" +:+ nl
   +:+ "  prefix = " +:+ dq +:+ dq +:+ nl
   +:+ "  location = " +:+ dq +:+ source +:+ dq +:+ nl
   +:+ "  mirror-by-digest-only = true" +:+ nl)%string.

Definition mirror_block (mirror : string) : string :=
  (nl +:+ "  [[registry.mirror]]" +:+ nl
   +:+ "    location = " +:+ dq +:+ mirror +:+ dq +:+ nl)%string.

(** The buffer [b] of [aroWorkerRegistries] once both loops are done. *)
Definition registries_buffer (icss : list ImageContentSource) : string :=
  let b := EmptyString in
  let b := b +:+ registries_default_line in
  fold_left
    (fun b ics =>
       let b := b +:+ registry_block (Source ics) in
       fold_left (fun b mirror => b +:+ mirror_block mirror) (Mirrors ics) b)
    icss b.

(** [aroWorkerRegistries]. *)
Definition aroWorkerRegistries (icss : list ImageContentSource) : string :=
  dataurl.String_ASCII (registries_buffer icss) "text/plain".

Section Render.
Context `{T : TextTemplate}.

(** [applyTemplateData]: [template.Must] panics on a parse error and an
    execution error is re-raised as a panic; only bytes are returned. *)
Definition applyTemplateData (data : string)
  (templateData : bootkubeTemplateData) : outcome string :=
  template ← (match template_Parse data with
              | Ok t => Returns t
              | Err err => Panics (PanicError err)
              end : outcome Template);
  match template_Execute template templateData with
  | Err err => Panics (PanicError err)
  | Ok buf => Returns buf
  end.

(** The inner loop of [generateBootKubeManifests] over the files of one
    bundled asset. *)
Fixpoint render_asset_files (templateData : bootkubeTemplateData)
  (asset_files files : list File) : outcome (list File) :=
  match asset_files with
  | [] => Returns files
  | f :: asset_files' =>
      data ← applyTemplateData (Data f) templateData;
      render_asset_files templateData asset_files'
        (files ++
           [mkFile
              (filepath.Join
                 [manifestDir;
                  strings.TrimSuffix (filepath.Base (Filename f)) ".template"])
              data])
  end.

End Render.

(** The assets of the loop of [generateBootKubeManifests], in its order. *)
Definition bootkube_assets : list BootkubeAsset :=
  [CVOOverrides; EtcdCAConfigMap; EtcdClientSecret; EtcdMetricClientSecret;
   EtcdMetricSignerSecret; EtcdMetricServingCAConfigMap; EtcdNamespace;
   EtcdService; EtcdServingCAConfigMap; EtcdSignerSecret; KubeCloudConfig;
   KubeSystemConfigmapRootCA; MachineConfigServerTLSSecret;
   OpenshiftConfigSecretPullSecret; OpenshiftMachineConfigOperator;
   KubevirtInfraNamespace; AROWorkerRegistries; AROIngressService;
   AROImageRegistry].

Section Generate.
Context `{Y : YAML} `{T : TextTemplate} `{K : PackageConsts}.

(** The template context built by [generateBootKubeManifests]. *)
Definition templateData_of (dependencies : Parents) : bootkubeTemplateData :=
  let config := installConfig_Config dependencies in
  let cert := tls_Cert dependencies in
  let key := tls_Key dependencies in
  {| CVOClusterID := clusterID_UUID dependencies;
     EtcdCaBundle := cert EtcdCABundle;
     EtcdMetricCaCert := cert EtcdMetricCABundle;
     EtcdMetricSignerCert := base64.EncodeToString (cert EtcdMetricSignerCertKey);
     EtcdMetricSignerClientCert :=
       base64.EncodeToString (cert EtcdMetricSignerClientCertKey);
     EtcdMetricSignerClientKey :=
       base64.EncodeToString (key EtcdMetricSignerClientCertKey);
     EtcdMetricSignerKey := base64.EncodeToString (key EtcdMetricSignerCertKey);
     EtcdSignerCert := base64.EncodeToString (cert EtcdSignerCertKey);
     EtcdSignerClientCert := base64.EncodeToString (cert EtcdSignerClientCertKey);
     EtcdSignerClientKey := base64.EncodeToString (key EtcdSignerClientCertKey);
     EtcdSignerKey := base64.EncodeToString (key EtcdSignerCertKey);
     McsTLSCert := base64.EncodeToString (cert MCSCertKey);
     McsTLSKey := base64.EncodeToString (key MCSCertKey);
     PullSecretBase64 := base64.EncodeToString (PullSecret config);
     RootCaCert := cert RootCA;
     AROWorkerRegistries_ := aroWorkerRegistries (ImageContentSources config);
     AROIngressIP := aroDNSConfig_IngressIP dependencies;
     AROIngressInternal := String.eqb (Publish config) InternalPublishingStrategy;
     AROImageRegistryHTTPSecret := aroImageRegistryConfig_HTTPSecret dependencies;
     AROImageRegistryAccountName :=
       aroImageRegistryConfig_AccountName dependencies;
     AROImageRegistryContainerName :=
       aroImageRegistryConfig_ContainerName dependencies;
     AROCloudName := installConfig_Azure_CloudName dependencies |}.

(** The outer loop of [generateBootKubeManifests]. *)
Fixpoint render_assets (dependencies : Parents)
  (templateData : bootkubeTemplateData) (assets : list BootkubeAsset)
  (files : list File) : outcome (list File) :=
  match assets with
  | [] => Returns files
  | a :: assets' =>
      files ← render_asset_files templateData (bootkube_Files dependencies a)
                files;
      render_assets dependencies templateData assets' files
  end.

(** [Manifests.generateBootKubeManifests]. *)
Definition generateBootKubeManifests (dependencies : Parents)
  : outcome (list File) :=
  let templateData := templateData_of dependencies in
  let files := [] in
  render_assets dependencies templateData bootkube_assets files.

(** [Manifests.Generate]: the receiver after the call and the returned
    error. *)
Definition Generate (m : Manifests) (dependencies : Parents)
  : outcome (Manifests * option error) :=
  '(_, redacted) ←
    redactedInstallConfig (store dependencies)
      (installConfig_Config dependencies);
  match redacted with
  | Err err => Returns (m, Some (ErrWrap err "failed to redact install-config"))
  | Ok redactedConfig =>
      let m :=
        mkManifests
          (Some (configMap "kube-system" "cluster-config-v1"
                   {[ "install-config"%string := redactedConfig ]}))
          (FileList m) in
      match yaml_Marshal_object
              (configMap "kube-system" "cluster-config-v1"
                 {[ "install-config"%string := redactedConfig ]}) with
      | Err err =>
          Returns
            (m, Some (ErrWrap err
                        "failed to create kube-system/cluster-config-v1 configmap"))
      | Ok kubeSysConfigData =>
          let m :=
            mkManifests (KubeSysConfig m)
              [mkFile kubeSysConfigPath kubeSysConfigData] in
          bootkube ← generateBootKubeManifests dependencies;
          let m := mkManifests (KubeSysConfig m) (FileList m ++ bootkube) in
          let m :=
            fold_left
              (fun m a =>
                 mkManifests (KubeSysConfig m)
                   (FileList m ++ config_Files dependencies a))
              [Ingress; DNS; Networking; Infrastructure; Proxy; Scheduler;
               ImageContentSourcePolicy] m in
          let m := mkManifests (KubeSysConfig m) (SortFiles (FileList m)) in
          Returns (m, None)
      end
  end.

(** The loop of [Load] over the fetched files: every file at the control
    path is parsed into the same object. *)
Fixpoint load_scan (fileList : list File) (kubeSysConfig : configurationObject)
  (found : bool) : result (configurationObject * bool) :=
  match fileList with
  | [] => Ok (kubeSysConfig, found)
  | file :: fileList' =>
      if String.eqb (Filename file) kubeSysConfigPath then
        match yaml_Unmarshal_object (Data file) kubeSysConfig with
        | Err err =>
            Err (ErrWrap err ("failed to unmarshal " +:+ kubeSysConfigPath))
        | Ok kubeSysConfig' => load_scan fileList' kubeSysConfig' true
        end
      else load_scan fileList' kubeSysConfig found
  end.

(** [Manifests.Load]: the receiver after the call, the found flag and the
    error. *)
Definition Load (m : Manifests) (f : FileFetcher)
  : Manifests * (bool * option error) :=
  match f (filepath.Join [manifestDir; "*.yaml"%string]) with
  | Err err => (m, (false, Some (ErrWrap err "failed to load *.yaml files")))
  | Ok yamlFileList =>
  match f (filepath.Join [manifestDir; "*.yml"%string]) with
  | Err err => (m, (false, Some (ErrWrap err "failed to load *.yml files")))
  | Ok ymlFileList =>
  match f (filepath.Join [manifestDir; "*.json"%string]) with
  | Err err => (m, (false, Some (ErrWrap err "failed to load *.json files")))
  | Ok jsonFileList =>
      let fileList := yamlFileList ++ ymlFileList in
      let fileList := fileList ++ jsonFileList in
      if (length fileList =? 0)%nat then (m, (false, None))
      else
        match load_scan fileList zero_configurationObject false with
        | Err err => (m, (false, Some err))
        | Ok (kubeSysConfig, found) =>
            if negb found then (m, (false, None))
            else
              let m := mkManifests (Some kubeSysConfig) fileList in
              let m := mkManifests (KubeSysConfig m) (SortFiles (FileList m)) in
              (m, (true, None))
        end
  end end end.

End Generate.

(** ** The manifest directory on disk *)

(** Modelled from the spec: the file store is outside the sources at hand.
    The persisted layout keeps one blob per relative file name; writing a
    file list stores each file under its name, a later file of the same name
    replacing an earlier one. *)
Definition persist (files : list File) (disk : gmap string string)
  : gmap string string :=
  fold_left (fun disk f => <[Filename f := Data f]> disk) files disk.

(** Modelled from the spec: [FetchByPattern] on a readable directory yields
    the stored files whose names match the pattern (none is no error), in
    name order. *)
Definition disk_fetcher (disk : gmap string string) : FileFetcher :=
  fun pattern =>
    Ok (SortFiles
          (map (fun kv => mkFile kv.1 kv.2)
             (filter (fun kv => filepath.Match pattern kv.1 = true)
                (map_to_list disk)))).

(** The three patterns [Load] fetches. *)
Definition load_patterns : list string :=
  [filepath.Join [manifestDir; "*.yaml"%string];
   filepath.Join [manifestDir; "*.yml"%string];
   filepath.Join [manifestDir; "*.json"%string]].

Definition loadable (name : string) : bool :=
  existsb (fun pattern => filepath.Match pattern name) load_patterns.


(** ** Specification-side vocabulary *)

(** The separator [indent] puts in place of a line break. *)
Definition indent_separator (n : Z) : string :=
  strings.newline +:+ strings.repeat_nat strings.space (Z.to_nat n).

Section RedactSpec.
Context `{ConfigShape}.

(** Redaction as the spec words it, on a configuration read through its
    pointers: the pull secret is cleared, the credentials of a vSphere
    platform are cleared when there is one, nothing else changes. *)
Definition redacted_platform (p : VSpherePlatform) : VSpherePlatform :=
  mkVSphere "" "" (vsphere_rest p).

Definition redacted_value (v : InstallConfigValue) : InstallConfigValue :=
  mkInstallConfigValue "" (PublishValue v) (ImageContentSourcesValue v)
    (mkPlatformValue
       (redacted_platform <$> VSphereValue (PlatformValue_ v))
       (platform_rest_value (PlatformValue_ v)))
    (config_rest_value v).

End RedactSpec.

(** The registries text as the spec words it, written line by line and
    independently of the format strings of the code: one default line, then
    per entry a block of lines naming the entry's source as location, each
    followed by one nested block of lines per mirror. *)
Definition quoted (s : string) : string :=
  String "034"%char (s +:+ String "034"%char EmptyString).

Fixpoint text_of_lines (ls : list string) : string :=
  match ls with
  | [] => EmptyString
  | l :: ls' => l +:+ String "010"%char (text_of_lines ls')
  end.

Definition default_lines : list string :=
  [("unqualified-search-registries = ["
    +:+ quoted "registry.access.redhat.com" +:+ ", " +:+ quoted "docker.io"
    +:+ "]")%string].

Definition registry_lines (source : string) : list string :=
  [EmptyString;
   "[[registry]]"%string;
   ("  prefix = " +:+ quoted EmptyString)%string;
   ("  location = " +:+ quoted source)%string;
   "  mirror-by-digest-only = true"%string].

Definition mirror_lines (mirror : string) : list string :=
  [EmptyString;
   "  [[registry.mirror]]"%string;
   ("    location = " +:+ quoted mirror)%string].

Definition registries_lines (icss : list ImageContentSource) : list string :=
  default_lines
  ++ flat_map
       (fun ics =>
          registry_lines (Source ics) ++ flat_map mirror_lines (Mirrors ics))
       icss.

Definition registries_text (icss : list ImageContentSource) : string :=
  text_of_lines (registries_lines icss).

(** Bytes that are printable 7-bit ASCII; a line break is not one. *)
Definition printable (c : ascii) : bool :=
  ((32 <=? nat_of_ascii c) && (nat_of_ascii c <=? 126))%nat.

Fixpoint all_bytes (P : ascii -> bool) (s : string) : bool :=
  match s with
  | EmptyString => true
  | String c s' => P c && all_bytes P s'
  end.

(** The name under which [generateBootKubeManifests] files a bundled
    template. *)
Definition rendered_name (f : File) : string :=
  filepath.Join
    [manifestDir; strings.TrimSuffix (filepath.Base (Filename f)) ".template"].

Section InputNames.
Context `{ConfigShape}.

(** The bundled template files in rendering order, and the files of the
    collaborating assets in appending order. *)
Definition template_files (dependencies : Parents) : list File :=
  concat (map (bootkube_Files dependencies) bootkube_assets).

Definition collaborator_files (dependencies : Parents) : list File :=
  concat
    (map (config_Files dependencies)
       [Ingress; DNS; Networking; Infrastructure; Proxy; Scheduler;
        ImageContentSourcePolicy]).

(** The file names [Generate] is about to emit, before sorting. *)
Definition emitted_names (dependencies : Parents) : list string :=
  kubeSysConfigPath
  :: map rendered_name (template_files dependencies)
  ++ map Filename (collaborator_files dependencies).

End InputNames.

Section RenderSpec.
Context `{T : TextTemplate}.

(** A template is malformed for a context when it does not parse or, once
    parsed, does not execute on that context. *)
Definition malformed (data : string) (templateData : bootkubeTemplateData)
  (err : error) : Prop :=
  template_Parse data = Err err
  \/ exists t : Template,
       template_Parse data = Ok t /\ template_Execute t templateData = Err err.

(** A rendered file carries the stripped name of its template and the
    bytes [applyTemplateData] returned for it. *)
Definition rendered_from (templateData : bootkubeTemplateData) (f r : File)
  : Prop :=
  Filename r = rendered_name f
  /\ applyTemplateData (Data f) templateData = Returns (Data r).

End RenderSpec.

(** A file list is sorted when every file comes no later than all files
    after it. *)
Definition sorted_by_name (files : list File) : Prop :=
  StronglySorted name_le files.

(** ** A small installation to run the definitions on *)

Module demo.

Definition shape : ConfigShape :=
  {| InstallConfigRest := unit; PlatformRest := unit; VSphereRest := unit |}.

Definition consts : PackageConsts :=
  {| configMap_APIVersion := "v1"; configMap_Kind := "ConfigMap" |}.

(** A line-oriented rendering of the named fields stands in for YAML. *)
Definition marshal_config (v : @InstallConfigValue shape) : result string :=
  Ok ("pullSecret: [" +:+ PullSecretValue v +:+ "]" +:+ nl
      +:+ "publish: " +:+ PublishValue v +:+ nl
      +:+ match VSphereValue (PlatformValue_ v) with
          | Some p =>
              "vsphere: [" +:+ Username p +:+ "][" +:+ Password p +:+ "]" +:+ nl
          | None => EmptyString
          end)%string.

Definition yaml : @YAML shape :=
  {| yaml_Marshal_InstallConfig := marshal_config;
     yaml_Marshal_object o :=
       Ok (default EmptyString (ObjData o !! "install-config"%string));
     yaml_Unmarshal_object data o :=
       Ok (@configMap consts "kube-system" "cluster-config-v1"
             {[ "install-config"%string := data ]}) |}.

(** Templates are plain texts in which the pull-secret field may be
    substituted; an unclosed action does not parse and an unknown field does
    not execute. *)
Definition template : TextTemplate :=
  {| Template := string;
     template_Parse data :=
       if String.eqb data "{{" then Err (ErrNew "unclosed action")
       else Ok data;
     template_Execute t templateData :=
       if String.eqb t "{{.Missing}}"
       then Err (ErrNew "can't evaluate field Missing")
       else Ok (strings.Replace t "{{.PullSecretBase64}}"
                  (PullSecretBase64 templateData) (-1)) |}.

Definition sources : list ImageContentSource :=
  [mkICS "registry.local" ["mirror1"; "mirror2"]%string].

Definition config : @InstallConfig shape :=
  @mkInstallConfig shape "abc" "Internal" sources
    (@mkPlatform shape (Some 0%nat) tt) tt.

Definition vsphere : @VSpherePlatform shape :=
  @mkVSphere shape "admin" "hunter2" tt.

Definition parents_with (bootkube : BootkubeAsset -> list File)
  (collaborators : ConfigAsset -> list File) : @Parents shape :=
  {| store := {[ 0%nat := vsphere ]};
     installConfig_Config := config;
     installConfig_Azure_CloudName := "AzurePublicCloud";
     clusterID_UUID := "c0ffee";
     tls_Cert := fun _ => "CERT"%string;
     tls_Key := fun _ => "KEY"%string;
     aroDNSConfig_IngressIP := "10.0.0.1";
     aroImageRegistryConfig_HTTPSecret := "s";
     aroImageRegistryConfig_AccountName := "acct";
     aroImageRegistryConfig_ContainerName := "ctr";
     bootkube_Files := bootkube;
     config_Files := collaborators |}.

Definition bootkube (a : BootkubeAsset) : list File :=
  match a with
  | OpenshiftConfigSecretPullSecret =>
      [mkFile "bootkube/manifests/openshift-config-secret-pull-secret.yaml.template"
         "pull: {{.PullSecretBase64}}"]
  | EtcdNamespace => [mkFile "bootkube/manifests/etcd-namespace.yaml" "etcd"]
  | _ => []
  end.

Definition collaborators (a : ConfigAsset) : list File :=
  match a with
  | Ingress => [mkFile "manifests/cluster-ingress-02-config.yml" "ingress"]
  | DNS => [mkFile "manifests/cluster-dns-02-config.yml" "dns"]
  | _ => []
  end.

Definition parents : @Parents shape := parents_with bootkube collaborators.

(** One bundled asset carrying both a template and a plain file of the same
    base name. *)
Definition bootkube_clash (a : BootkubeAsset) : list File :=
  match a with
  | CVOOverrides =>
      [mkFile "bootkube/manifests/cvo-overrides.yaml.template" "a";
       mkFile "bootkube/manifests/cvo-overrides.yaml" "b"]
  | _ => []
  end.

(** A collaborator emitting a file that none of the load patterns
    matches. *)
Definition collaborators_txt (a : ConfigAsset) : list File :=
  match a with
  | Ingress => [mkFile "manifests/cluster-ingress-02-config.txt" "ingress"]
  | _ => []
  end.

(** A store with two unrelated manifests and no control manifest, and one
    whose [*.yml] listing cannot be read. *)
Definition unrelated_fetcher : FileFetcher :=
  fun pattern =>
    if String.eqb pattern "manifests/*.yaml"
    then Ok [mkFile "manifests/a.yaml" "a"; mkFile "manifests/b.yaml" "b"]
    else Ok [].

Definition broken_fetcher : FileFetcher :=
  fun pattern =>
    if String.eqb pattern "manifests/*.yml" then Err (ErrNew "permission denied")
    else Ok [].

Definition empty_manifests : Manifests := mkManifests None [].

End demo.

(** ** Request builders of the Graph SDK *)

Module msgraph.

(** A Go [map[string]string] is a reference: a request builder holds the
    address of its path parameters in a store of maps, [None] for a nil
    map.  The request adapter and the constructors of the item builders are
    declared outside the sources at hand; what is embedded is the map a
    [By...Id] method builds and hands to such a constructor. *)
Definition read_map (st : gmap addr (gmap string string)) (p : option addr)
  : outcome (gmap string string) :=
  match p with
  | None => Returns ∅
  | Some a =>
      match st !! a with
      | Some params => Returns params
      | None =>
          Panics (PanicMessage "invalid memory address or nil pointer dereference")
      end
  end.

(** The body shared by the [By...Id] methods: a fresh map receives every
    entry of the builder's path parameters and then, unless the id is empty,
    the id under the item's key.  The store after the call and the address
    of the new map are returned. *)
Definition withItemId (key : string) (st : gmap addr (gmap string string))
  (pathParameters : option addr) (id : string)
  : outcome (gmap addr (gmap string string) * addr) :=
  let a := fresh (dom st) in
  let urlTplParams : gmap string string := ∅ in
  src ← read_map st pathParameters;
  let urlTplParams :=
    map_fold (fun idx item urlTplParams => <[idx := item]> urlTplParams)
      urlTplParams src in
  let urlTplParams :=
    if negb (String.eqb id "") then <[key := id]> urlTplParams
    else urlTplParams in
  Returns (<[a := urlTplParams]> st, a).

(** [ItemChannelsItemSharedWithTeamsItemAllowedMembersRequestBuilder.ByConversationMemberId]. *)
Definition ByConversationMemberId :=
  withItemId "conversationMember%2Did".

(** [ClassesItemAssignmentsItemSubmissionsItemSubmittedResourcesRequestBuilder.ByEducationSubmissionResourceId]. *)
Definition ByEducationSubmissionResourceId :=
  withItemId "educationSubmissionResource%2Did".

(** The map [New...RequestBuilder(rawUrl, requestAdapter)] builds for the
    internal constructor. *)
Definition rawUrlParams (rawUrl : string) : gmap string string :=
  let urlParams : gmap string string := ∅ in
  <[ "request-raw-url"%string := rawUrl ]> urlParams.

End msgraph.

(** A plain file name: not empty, without a separator, and neither of the
    dot elements. *)
Definition plain_name (s : string) : Prop :=
  s <> EmptyString /\ s <> "."%string /\ s <> ".."%string
  /\ all_bytes (fun c => negb (Ascii.eqb c filepath.Separator)) s = true.

Module demo2.

(** A serializer that cannot write the control object. *)
Definition yaml_failing : @YAML demo.shape :=
  {| yaml_Marshal_InstallConfig := demo.marshal_config;
     yaml_Marshal_object o := Err (ErrNew "cannot marshal");
     yaml_Unmarshal_object data o := Err (ErrNew "cannot unmarshal") |}.

(** A bundled template with an unclosed action after a good file. *)
Definition bootkube_bad (a : BootkubeAsset) : list File :=
  match a with
  | EtcdNamespace => [mkFile "etcd-namespace.yaml" "etcd"]
  | OpenshiftConfigSecretPullSecret =>
      [mkFile "openshift-config-secret-pull-secret.yaml.template" "{{"]
  | _ => []
  end.

(** A directory listing with the control manifest and one other file. *)
Definition stored_fetcher : FileFetcher :=
  fun pattern =>
    if String.eqb pattern "manifests/*.yaml"
    then Ok [mkFile "manifests/a.yaml" "a";
             mkFile "manifests/cluster-config.yaml" "cfg"]
    else Ok [].

(** A configuration that is already clean, without a vSphere platform. *)
Definition clean_config : @InstallConfig demo.shape :=
  @mkInstallConfig demo.shape "" "External" []
    (@mkPlatform demo.shape None tt) tt.

(** A store with the path parameters of one builder. *)
Definition params : gmap string string :=
  {[ "team%2Did"%string := "t1"%string ]}.

Definition maps : gmap addr (gmap string string) := {[ 0%nat := params ]}.

End demo2.

(** * Properties *)

(** ** Strings *)

Section StringFacts.

Lemma app_cons (c : ascii) (s t : string) :
  String c s +:+ t = String c (s +:+ t).
Proof. reflexivity. Qed.

Lemma app_nil (t : string) : EmptyString +:+ t = t.
Proof. reflexivity. Qed.

Lemma length_app (s t : string) :
  String.length (s +:+ t) = (String.length s + String.length t)%nat.
Proof.
  induction s as [|c s IH]; [reflexivity |].
  rewrite app_cons. simpl. now f_equal.
Qed.

Lemma app_empty_r (s : string) : s +:+ EmptyString = s.
Proof.
  induction s as [|c s IH]; [reflexivity |].
  rewrite app_cons. now f_equal.
Qed.

Lemma app_assoc_s (s t u : string) : (s +:+ t) +:+ u = s +:+ (t +:+ u).
Proof.
  induction s as [|c s IH]; [reflexivity |].
  rewrite !app_cons. now f_equal.
Qed.

Lemma prefix_empty (s : string) : String.prefix EmptyString s = true.
Proof. now destruct s. Qed.

Lemma line_breaks_app (s t : string) :
  line_breaks (s +:+ t) = (line_breaks s + line_breaks t)%nat.
Proof.
  induction s as [|c s IH]; [reflexivity |].
  rewrite app_cons. simpl. rewrite IH. lia.
Qed.

Lemma line_breaks_spaces (n : nat) :
  line_breaks (strings.repeat_nat strings.space n) = 0%nat.
Proof.
  induction n as [|n IH]; [reflexivity |].
  simpl. rewrite line_breaks_app. exact IH.
Qed.

Lemma length_spaces (n : nat) :
  String.length (strings.repeat_nat strings.space n) = n.
Proof.
  induction n as [|n IH]; [reflexivity |].
  simpl. rewrite length_app, IH. reflexivity.
Qed.

Lemma lines_nonempty (s : string) : lines s <> [].
Proof.
  destruct s as [|c s]; simpl; [discriminate |].
  destruct (Ascii.eqb c strings.LF); [discriminate |].
  destruct (lines s); discriminate.
Qed.

Lemma lines_length (s : string) : length (lines s) = S (line_breaks s).
Proof.
  induction s as [|c s IH]; simpl; [reflexivity |].
  destruct (Ascii.eqb c strings.LF); simpl; [now rewrite IH |].
  destruct (lines s) as [|l ls] eqn:E; [now destruct (lines_nonempty s) |].
  simpl in *. exact IH.
Qed.

Lemma lines_no_break (s : string) :
  Forall (fun piece => line_breaks piece = 0%nat) (lines s).
Proof.
  induction s as [|c s IH]; simpl.
  - repeat constructor.
  - destruct (Ascii.eqb c strings.LF) eqn:Ec.
    + constructor; [reflexivity | exact IH].
    + destruct (lines s) as [|l ls] eqn:E; [now destruct (lines_nonempty s) |].
      inversion IH as [|? ? Hl Hls]; subst.
      constructor; [simpl; rewrite Ec; exact Hl | exact Hls].
Qed.

(** Joining the pieces of [s] with any separator: the head of the join. *)
Lemma concat_lines_cons (sep : string) (c : ascii) (s : string) :
  Ascii.eqb c strings.LF = false ->
  String.concat sep (lines (String c s)) = String c (String.concat sep (lines s)).
Proof.
  intros Ec. simpl. rewrite Ec.
  destruct (lines s) as [|l ls] eqn:E; [now destruct (lines_nonempty s) |].
  destruct ls; reflexivity.
Qed.

Lemma concat_lines_break (sep : string) (s : string) :
  String.concat sep (lines (String strings.LF s))
  = sep +:+ String.concat sep (lines s).
Proof.
  simpl. destruct (lines s) as [|l ls] eqn:E; [now destruct (lines_nonempty s) |].
  reflexivity.
Qed.

Lemma concat_lines_newline (s : string) :
  String.concat strings.newline (lines s) = s.
Proof.
  induction s as [|c s IH]; [reflexivity |].
  destruct (Ascii.eqb c strings.LF) eqn:Ec.
  - apply Ascii.eqb_eq in Ec. subst c.
    rewrite concat_lines_break, IH. reflexivity.
  - rewrite concat_lines_cons by exact Ec. now rewrite IH.
Qed.

Lemma prefix_newline (c : ascii) (s : string) :
  String.prefix strings.newline (String c s) = Ascii.eqb c strings.LF.
Proof.
  change (String.prefix strings.newline (String c s))
    with (if ascii_dec strings.LF c then String.prefix EmptyString s else false).
  destruct (ascii_dec strings.LF c) as [<-|Hne].
  - rewrite prefix_empty. symmetry. apply Ascii.eqb_refl.
  - symmetry. apply Ascii.eqb_neq. congruence.
Qed.

Lemma Count_newline (s : string) :
  strings.Count s strings.newline = line_breaks s.
Proof.
  unfold strings.Count.
  induction s as [|c s IH]; [reflexivity |].
  cbn [strings.count_from line_breaks]. rewrite prefix_newline.
  destruct (Ascii.eqb c strings.LF); cbn; now rewrite IH.
Qed.

Lemma replace_from_newline (new s : string) (budget : nat) :
  (line_breaks s <= budget)%nat ->
  strings.replace_from budget 0 s strings.newline new
  = String.concat new (lines s).
Proof.
  revert budget. induction s as [|c s IH]; intros budget Hb; [reflexivity |].
  cbn [strings.replace_from].
  destruct (Ascii.eqb c strings.LF) eqn:Ec.
  - pose proof Ec as Ec'. apply Ascii.eqb_eq in Ec'. subst c.
    cbn [line_breaks] in Hb. rewrite Ascii.eqb_refl in Hb.
    destruct budget as [|b]; [lia |].
    rewrite prefix_newline, Ascii.eqb_refl. cbn [String.length strings.newline Nat.sub].
    rewrite concat_lines_break. f_equal. apply IH. lia.
  - cbn [line_breaks] in Hb. rewrite Ec in Hb.
    rewrite concat_lines_cons by exact Ec.
    destruct budget as [|b].
    + assert (Hz : line_breaks s = 0%nat) by lia.
      f_equal. rewrite <- (IH 0%nat) by lia.
      destruct s; reflexivity.
    + rewrite prefix_newline, Ec. f_equal. apply IH. lia.
Qed.

Lemma Replace_newline (new s : string) :
  strings.Replace s strings.newline new (-1) = String.concat new (lines s).
Proof.
  unfold strings.Replace.
  destruct (String.eqb strings.newline new) eqn:En.
  - apply String.eqb_eq in En. subst new. cbn [orb].
    symmetry. apply concat_lines_newline.
  - cbn [orb Z.eqb]. rewrite Count_newline.
    destruct (line_breaks s) as [|k] eqn:Ek.
    + rewrite <- (replace_from_newline new s 0) by lia.
      destruct s; reflexivity.
    + cbn [Z.ltb Z.compare orb]. apply replace_from_newline. lia.
Qed.

Lemma line_breaks_concat (sep : string) (pieces : list string) :
  Forall (fun piece => line_breaks piece = 0%nat) pieces ->
  line_breaks (String.concat sep pieces)
  = (line_breaks sep * (length pieces - 1))%nat.
Proof.
  induction 1 as [|p ps Hp Hps IH]; [simpl; lia |].
  destruct ps as [|q ps].
  - simpl. rewrite Hp. lia.
  - change (String.concat sep (p :: q :: ps))
      with (p +:+ sep +:+ String.concat sep (q :: ps)).
    rewrite !line_breaks_app, Hp, IH. simpl length. lia.
Qed.

Lemma length_concat_sep (sep sep' : string) (pieces : list string) :
  (String.length (String.concat sep' pieces) + String.length sep * (length pieces - 1)
   = String.length (String.concat sep pieces)
     + String.length sep' * (length pieces - 1))%nat.
Proof.
  induction pieces as [|p ps IH]; [simpl; lia |].
  destruct ps as [|q ps]; [simpl; lia |].
  change (String.concat sep' (p :: q :: ps))
    with (p +:+ sep' +:+ String.concat sep' (q :: ps)).
  change (String.concat sep (p :: q :: ps))
    with (p +:+ sep +:+ String.concat sep (q :: ps)).
  rewrite !length_app. simpl length in *. 
  replace (S (S (length ps)) - 1)%nat with (S (length ps - 0)) by lia.
  replace (S (length ps) - 1)%nat with (length ps - 0)%nat in IH by lia.
  lia.
Qed.

End StringFacts.

(** ** [indent] *)

Lemma indent_nonneg (n : Z) (text : string) :
  0 <= n ->
  indent n text = Returns (String.concat (indent_separator n) (lines text)).
Proof.
  intros Hn. unfold indent, strings.Repeat.
  destruct (n <? 0) eqn:E; [apply Z.ltb_lt in E; lia |].
  cbn. f_equal. apply Replace_newline.
Qed.

Lemma indent_negative (n : Z) (text : string) :
  n < 0 ->
  indent n text = Panics (PanicMessage "strings: negative Repeat count").
Proof.
  intros Hn. unfold indent, strings.Repeat.
  apply Z.ltb_lt in Hn. rewrite Hn. reflexivity.
Qed.

Lemma get_spaces (n j : nat) :
  (j < n)%nat ->
  String.get j (strings.repeat_nat strings.space n) = Some " "%char.
Proof.
  revert j. induction n as [|n IH]; intros j Hj; [lia |].
  destruct j as [|j]; [reflexivity |].
  simpl. apply IH. lia.
Qed.

(** In the indented text every line break is followed by the padding. *)
Lemma padded_after_break (pad : nat) (s : string) (i j : nat) :
  String.get i
    (String.concat (strings.newline +:+ strings.repeat_nat strings.space pad)
       (lines s)) = Some strings.LF ->
  (j < pad)%nat ->
  String.get (i + 1 + j)
    (String.concat (strings.newline +:+ strings.repeat_nat strings.space pad)
       (lines s)) = Some " "%char.
Proof.
  set (sep := strings.newline +:+ strings.repeat_nat strings.space pad).
  revert i. induction s as [|c s IH]; intros i Hi Hj.
  - destruct i; discriminate.
  - destruct (Ascii.eqb c strings.LF) eqn:Ec.
    + apply Ascii.eqb_eq in Ec. subst c.
      rewrite concat_lines_break in *.
      unfold sep at 1 in Hi. unfold sep at 1.
      unfold strings.newline in *. rewrite !app_cons, !app_nil in *.
      destruct i as [|i].
      * simpl. rewrite <- append_correct1; [now apply get_spaces |].
        now rewrite length_spaces.
      * simpl in Hi. simpl.
        destruct (Nat.lt_ge_cases i pad) as [Hlt|Hge].
        -- rewrite <- append_correct1 in Hi by now rewrite length_spaces.
           rewrite get_spaces in Hi by exact Hlt. discriminate.
        -- replace i with (i - pad + String.length
                             (strings.repeat_nat strings.space pad))%nat in Hi
             by (rewrite length_spaces; lia).
           rewrite <- append_correct2 in Hi.
           replace (i + 1 + j)%nat
             with ((i - pad) + 1 + j + String.length
                     (strings.repeat_nat strings.space pad))%nat
             by (rewrite length_spaces; lia).
           rewrite <- append_correct2. now apply IH.
    + rewrite concat_lines_cons in * by exact Ec.
      destruct i as [|i].
      * simpl in Hi. apply Ascii.eqb_neq in Ec. congruence.
      * simpl in Hi. simpl. now apply IH.
Qed.

Lemma first_byte_of_indented (sep : string) (s : string) :
  String.get 0 (String.concat (strings.newline +:+ sep) (lines s))
  = String.get 0 s.
Proof.
  destruct s as [|c s]; [reflexivity |].
  destruct (Ascii.eqb c strings.LF) eqn:Ec.
  - apply Ascii.eqb_eq in Ec. subst c. rewrite concat_lines_break.
    reflexivity.
  - rewrite concat_lines_cons by exact Ec. reflexivity.
Qed.

Lemma first_byte_of_first_line (s : string) :
  String.get 0 s = Some " "%char ->
  exists (l : string) (ls : list string),
    lines s = l :: ls /\ String.get 0 l = Some " "%char.
Proof.
  destruct s as [|c s]; [discriminate |].
  cbn [String.get]. intros [= ->]. cbn [lines].
  change (Ascii.eqb " " strings.LF) with false. cbn iota.
  destruct (lines s) as [|l ls]; eexists _, _; split; reflexivity.
Qed.

(** In the indented text a line break is followed by no more than the
    padding, provided no line after a line break began with a space. *)
Lemma exactly_padded_after_break (pad : nat) (s : string) (i : nat) :
  Forall (fun piece => String.get 0 piece <> Some " "%char) (tl (lines s)) ->
  String.get i
    (String.concat (strings.newline +:+ strings.repeat_nat strings.space pad)
       (lines s)) = Some strings.LF ->
  String.get (i + 1 + pad)
    (String.concat (strings.newline +:+ strings.repeat_nat strings.space pad)
       (lines s)) <> Some " "%char.
Proof.
  revert i. induction s as [|c s IH]; intros i Hlines Hi.
  - destruct i; discriminate.
  - destruct (Ascii.eqb c strings.LF) eqn:Ec.
    + apply Ascii.eqb_eq in Ec. subst c.
      assert (Hrest : Forall (fun piece => String.get 0 piece <> Some " "%char)
                        (lines s)).
      { cbn [lines] in Hlines. rewrite Ascii.eqb_refl in Hlines. exact Hlines. }
      assert (Htail : Forall (fun piece => String.get 0 piece <> Some " "%char)
                        (tl (lines s))).
      { destruct (lines s); [constructor | now inversion Hrest]. }
      pose proof (first_byte_of_indented (strings.repeat_nat strings.space pad) s)
        as Hfirst.
      rewrite concat_lines_break in *.
      unfold strings.newline in Hi at 1. unfold strings.newline at 1.
      rewrite !app_cons, !app_nil in *.
      destruct i as [|i].
      * cbn [Nat.add String.get].
        replace pad with (0 + String.length
                                (strings.repeat_nat strings.space pad))%nat at 1
          by (rewrite length_spaces; lia).
        rewrite <- append_correct2, Hfirst. intros Hsp.
        destruct (first_byte_of_first_line s Hsp) as (l & ls & El & Hl).
        rewrite El in Hrest. inversion Hrest as [|? ? Hno _]. now apply Hno.
      * cbn [String.get] in Hi. cbn [Nat.add String.get].
        destruct (Nat.lt_ge_cases i pad) as [Hlt|Hge].
        -- rewrite <- append_correct1 in Hi by now rewrite length_spaces.
           rewrite get_spaces in Hi by exact Hlt. discriminate.
        -- replace i with (i - pad + String.length
                             (strings.repeat_nat strings.space pad))%nat in Hi
             by (rewrite length_spaces; lia).
           rewrite <- append_correct2 in Hi.
           replace (i + 1 + pad)%nat
             with ((i - pad) + 1 + pad + String.length
                     (strings.repeat_nat strings.space pad))%nat
             by (rewrite length_spaces; lia).
           rewrite <- append_correct2. now apply IH.
    + assert (Htail : Forall (fun piece => String.get 0 piece <> Some " "%char)
                        (tl (lines s))).
      { cbn [lines] in Hlines. rewrite Ec in Hlines.
        destruct (lines s); [constructor | exact Hlines]. }
      rewrite concat_lines_cons in * by exact Ec.
      destruct i as [|i].
      * cbn in Hi. apply Ascii.eqb_neq in Ec. congruence.
      * cbn [String.get] in Hi. cbn [Nat.add String.get]. now apply IH.
Qed.

(** C5, as the code has it: for a non-negative width [n] and a text with
    [k] line breaks, [indent n text] returns the text with each of its [k]
    line breaks replaced by a line break and [n] spaces (the [k + 1] pieces
    between the line breaks are kept and joined by that separator), so the
    result has [k] line breaks, is [k * n] bytes longer, has at least [n]
    spaces after every line break, and exactly [n] when no line of the text
    after a line break began with a space; it is the text itself when [k]
    is zero. *)
Theorem indent_replaces_each_line_break (n : Z) (text : string) (k : nat) :
  0 <= n ->
  line_breaks text = k ->
  exists r : string,
    indent n text = Returns r
    /\ length (lines text) = S k
    /\ Forall (fun piece => line_breaks piece = 0%nat) (lines text)
    /\ text = String.concat strings.newline (lines text)
    /\ r = String.concat (indent_separator n) (lines text)
    /\ line_breaks r = k
    /\ String.length r = (String.length text + k * Z.to_nat n)%nat
    /\ (forall i j : nat,
          String.get i r = Some strings.LF -> (j < Z.to_nat n)%nat ->
          String.get (i + 1 + j) r = Some " "%char)
    /\ (Forall (fun piece => String.get 0 piece <> Some " "%char)
          (tl (lines text)) ->
        forall i : nat,
          String.get i r = Some strings.LF ->
          String.get (i + 1 + Z.to_nat n) r <> Some " "%char)
    /\ (k = 0%nat -> r = text).
Proof.
  intros Hn Hk. eexists. split; [apply indent_nonneg; exact Hn |].
  pose proof (lines_length text) as Hlen. rewrite Hk in Hlen.
  pose proof (lines_no_break text) as Hno.
  assert (Hsep : line_breaks (indent_separator n) = 1%nat).
  { unfold indent_separator. rewrite line_breaks_app, line_breaks_spaces.
    reflexivity. }
  assert (Hseplen : String.length (indent_separator n) = S (Z.to_nat n)).
  { unfold indent_separator. rewrite length_app, length_spaces. reflexivity. }
  split; [exact Hlen |]. split; [exact Hno |].
  split; [symmetry; apply concat_lines_newline |]. split; [reflexivity |].
  split.
  { rewrite line_breaks_concat by exact Hno. rewrite Hsep, Hlen. lia. }
  split.
  { pose proof (length_concat_sep (indent_separator n) strings.newline
                  (lines text)) as E.
    rewrite concat_lines_newline, Hseplen, Hlen in E.
    change (String.length strings.newline) with 1%nat in E.
    replace (S k - 1)%nat with k in E by lia. nia. }
  split.
  { intros i j Hi Hj. unfold indent_separator in *.
    now apply padded_after_break. }
  split.
  { intros Hlines i Hi. unfold indent_separator in *.
    now apply exactly_padded_after_break. }
  intros ->. destruct (lines text) as [|p [|q ps]] eqn:E; try discriminate.
  rewrite <- (concat_lines_newline text), E. reflexivity.
Qed.

(** C5, refuted as stated: in the text "a\n b" the line after the line
    break begins with a space, and [indent 2] leaves three spaces after the
    line break of its result, not exactly two. *)
Lemma indent_leaves_more_than_n_spaces :
  indent 2 ("a" +:+ strings.newline +:+ " b")
  = Returns ("a" +:+ strings.newline +:+ "   b")%string
  /\ ~ (forall (n : Z) (text r : string) (i : nat),
          0 <= n ->
          indent n text = Returns r ->
          String.get i r = Some strings.LF ->
          String.get (i + 1 + Z.to_nat n) r <> Some " "%char).
Proof.
  split; [reflexivity |].
  intros Hexact.
  apply (Hexact 2 ("a" +:+ strings.newline +:+ " b")%string
           ("a" +:+ strings.newline +:+ "   b")%string 1%nat);
    [lia | reflexivity | reflexivity | reflexivity].
Qed.

Lemma indent_replaces_each_line_break_witness :
  exists r : string,
    indent 2 ("a" +:+ strings.newline +:+ " b" +:+ strings.newline) = Returns r
    /\ r = ("a" +:+ strings.newline +:+ "   b" +:+ strings.newline +:+ "  ")%string.
Proof.
  destruct (indent_replaces_each_line_break 2
              ("a" +:+ strings.newline +:+ " b" +:+ strings.newline) 2)
    as (r & Hr & _ & _ & _ & Hc & _); [lia | reflexivity |].
  exists r. split; [exact Hr |]. rewrite Hc. reflexivity.
Defined.

(** C10, as the code has it: a negative width makes [indent] panic on the
    negative space-repetition count whatever the text is, with or without a
    line break; [indent] returns a value exactly when the width is
    non-negative. *)
Theorem indent_total_iff_width_nonneg (n : Z) (text : string) :
  (indent n text = Panics (PanicMessage "strings: negative Repeat count")
   <-> n < 0)
  /\ ((exists r : string, indent n text = Returns r) <-> 0 <= n).
Proof.
  destruct (Z.lt_ge_cases n 0) as [Hneg|Hpos].
  - rewrite (indent_negative n text Hneg). split; split; try tauto.
    + intros [r Hr]. discriminate.
    + lia.
  - rewrite (indent_nonneg n text Hpos). split; split.
    + discriminate.
    + lia.
    + intros _. exact Hpos.
    + intros _. eexists. reflexivity.
Qed.

(** C10, refuted as stated: the text "abc" has no line break, so the
    stated precondition for totality holds at width -1, and yet [indent]
    panics there. *)
Lemma indent_panics_without_line_break :
  line_breaks "abc" = 0%nat
  /\ indent (-1) "abc" = Panics (PanicMessage "strings: negative Repeat count")
  /\ ~ (forall (n : Z) (text : string),
          0 <= n \/ line_breaks text = 0%nat ->
          exists r : string, indent n text = Returns r).
Proof.
  split; [reflexivity |]. split; [reflexivity |].
  intros Htotal.
  destruct (Htotal (-1) "abc"%string) as [r Hr]; [right; reflexivity |].
  discriminate.
Qed.

(** ** Redaction *)

Section RedactFacts.
Context `{Y : YAML}.

Lemma value_of_inv (h : gmap addr VSpherePlatform) (config : InstallConfig)
  (v : InstallConfigValue) :
  value_of h config = Returns v ->
  PullSecretValue v = PullSecret config
  /\ PublishValue v = Publish config
  /\ ImageContentSourcesValue v = ImageContentSources config
  /\ config_rest_value v = config_rest config
  /\ platform_rest_value (PlatformValue_ v) = platform_rest (Platform_ config)
  /\ match VSphere (Platform_ config) with
     | Some a => h !! a = VSphereValue (PlatformValue_ v)
                 /\ is_Some (h !! a)
     | None => VSphereValue (PlatformValue_ v) = None
     end.
Proof.
  unfold value_of, load. destruct (VSphere (Platform_ config)) as [a|].
  - destruct (h !! a) as [p|] eqn:Ha; cbn; [| discriminate].
    intros [= <-]. cbn. eauto 10.
  - cbn. intros [= <-]. cbn. eauto 10.
Qed.

(** Values read through the unchanged part of a grown store are the
    same. *)
Lemma value_of_mono (h h' : gmap addr VSpherePlatform) (config : InstallConfig)
  (v : InstallConfigValue) :
  h ⊆ h' -> value_of h config = Returns v -> value_of h' config = Returns v.
Proof.
  intros Hsub. unfold value_of, load.
  destruct (VSphere (Platform_ config)) as [a|]; [| easy].
  destruct (h !! a) as [p|] eqn:Ha; cbn; [| discriminate].
  now rewrite (lookup_weaken _ _ _ _ Ha Hsub).
Qed.

(** The run of [redactedInstallConfig] on a configuration that reads as
    [v]: the result is the serialization of the redacted value and the store
    only grows. *)
Lemma redactedInstallConfig_run
  (h : gmap addr VSpherePlatform) (config : InstallConfig)
  (v : InstallConfigValue) :
  value_of h config = Returns v ->
  exists h' : gmap addr VSpherePlatform,
    redactedInstallConfig h config
    = Returns (h', yaml_Marshal_InstallConfig (redacted_value v))
    /\ h ⊆ h'.
Proof.
  intros Hv.
  destruct (value_of_inv h config v Hv)
    as (Hps & Hpub & Hics & Hrest & Hprest & Hvs).
  unfold redactedInstallConfig, load. cbn [VSphere Platform_].
  destruct (VSphere (Platform_ config)) as [a|] eqn:Ea.
  - destruct Hvs as [Hlook [p Hp]].
    exists (<[fresh (dom h) := mkVSphere "" "" (vsphere_rest p)]> h).
    split; [| apply insert_subseteq, not_elem_of_dom, is_fresh].
    rewrite Hp. cbn. unfold value_of, load. cbn.
    rewrite lookup_insert_eq. cbn. do 3 f_equal.
    unfold redacted_value. rewrite <- Hlook, Hp, Hpub, Hics, Hrest, Hprest.
    reflexivity.
  - exists h. split; [| reflexivity]. cbn.
    unfold value_of. cbn. rewrite Ea. cbn. do 3 f_equal.
    unfold redacted_value. rewrite Hvs, Hpub, Hics, Hrest, Hprest.
    reflexivity.
Qed.

(** A run that returns started from a configuration whose pointers were
    valid. *)
Lemma redactedInstallConfig_returns
  (h h' : gmap addr VSpherePlatform) (config : InstallConfig)
  (r : result string) :
  redactedInstallConfig h config = Returns (h', r) ->
  exists v : InstallConfigValue,
    value_of h config = Returns v
    /\ r = yaml_Marshal_InstallConfig (redacted_value v).
Proof.
  intros Hrun.
  assert (Hv : exists v, value_of h config = Returns v).
  { revert Hrun. unfold redactedInstallConfig, value_of, load.
    cbn [VSphere Platform_].
    destruct (VSphere (Platform_ config)) as [a|]; [| eauto].
    destruct (h !! a) as [p|]; cbn; [eauto | discriminate]. }
  destruct Hv as [v Hv]. exists v. split; [exact Hv |].
  destruct (redactedInstallConfig_run h config v Hv) as (h'' & Hrun' & _).
  congruence.
Qed.

(** C1: on a configuration whose pointers are valid in the store (so that
    it reads as the value [v]), [redactedInstallConfig] returns the
    serialization of [v] with the pull secret cleared and, when the vSphere
    platform is present, its username and password cleared, every other
    component being the one of [v]; the store only grows by the private
    copy, and the caller's configuration still reads as [v] afterwards. *)
Theorem redactedInstallConfig_clears_secrets
  (h : gmap addr VSpherePlatform) (config : InstallConfig)
  (v : InstallConfigValue) :
  value_of h config = Returns v ->
  exists h' : gmap addr VSpherePlatform,
    redactedInstallConfig h config
    = Returns (h', yaml_Marshal_InstallConfig (redacted_value v))
    /\ PullSecretValue (redacted_value v) = EmptyString
    /\ (forall p : VSpherePlatform,
          VSphereValue (PlatformValue_ v) = Some p ->
          VSphereValue (PlatformValue_ (redacted_value v))
          = Some (mkVSphere EmptyString EmptyString (vsphere_rest p)))
    /\ (VSphereValue (PlatformValue_ v) = None ->
        VSphereValue (PlatformValue_ (redacted_value v)) = None)
    /\ PublishValue (redacted_value v) = PublishValue v
    /\ ImageContentSourcesValue (redacted_value v) = ImageContentSourcesValue v
    /\ platform_rest_value (PlatformValue_ (redacted_value v))
       = platform_rest_value (PlatformValue_ v)
    /\ config_rest_value (redacted_value v) = config_rest_value v
    /\ h ⊆ h'
    /\ value_of h' config = Returns v.
Proof.
  intros Hv.
  destruct (redactedInstallConfig_run h config v Hv) as (h' & Hrun & Hsub).
  exists h'. split; [exact Hrun |]. split; [reflexivity |].
  split; [intros p Hp; cbn; now rewrite Hp |].
  split; [intros Hn; cbn; now rewrite Hn |].
  repeat (split; [reflexivity |]).
  split; [exact Hsub | now apply (value_of_mono h)].
Qed.

End RedactFacts.

Lemma redactedInstallConfig_clears_secrets_witness :
  exists h' : gmap addr VSpherePlatform,
    @redactedInstallConfig demo.shape demo.yaml {[ 0%nat := demo.vsphere ]}
      demo.config
    = Returns
        (h',
         Ok ("pullSecret: []" +:+ nl +:+ "publish: Internal" +:+ nl
             +:+ "vsphere: [][]" +:+ nl)%string)
    /\ h' !! 0%nat = Some demo.vsphere.
Proof.
  destruct (@redactedInstallConfig_clears_secrets demo.shape demo.yaml
              {[ 0%nat := demo.vsphere ]} demo.config
              (@mkInstallConfigValue demo.shape "abc" "Internal" demo.sources
                 (@mkPlatformValue demo.shape (Some demo.vsphere) tt) tt))
    as (h' & Hrun & _ & _ & _ & _ & _ & _ & _ & Hsub & _); [reflexivity |].
  exists h'. split; [exact Hrun |].
  apply (lookup_weaken _ _ _ _ (lookup_singleton_eq 0%nat demo.vsphere) Hsub).
Defined.

(** ** Rendering *)

Section RenderFacts.
Context `{T : TextTemplate}.

Lemma applyTemplateData_returns (data : string)
  (templateData : bootkubeTemplateData) (buf : string) :
  applyTemplateData data templateData = Returns buf <->
  exists t : Template,
    template_Parse data = Ok t /\ template_Execute t templateData = Ok buf.
Proof.
  unfold applyTemplateData. destruct (template_Parse data) as [t|e]; cbn.
  - destruct (template_Execute t templateData) as [b|e] eqn:E; split.
    + intros [= <-]. eauto.
    + intros (t' & [= <-] & Hb). congruence.
    + discriminate.
    + intros (t' & [= <-] & Hb). congruence.
  - split; [discriminate | intros (t & Ht & _); discriminate].
Qed.

(** C7: rendering a template that is malformed (it does not parse, or a
    field it refers to cannot be resolved on the context) panics with that
    error and returns nothing; the only values rendering hands back to its
    caller are rendered bytes of a template that parsed and executed. *)
Theorem applyTemplateData_malformed_panics (data : string)
  (templateData : bootkubeTemplateData) (err : error) :
  malformed data templateData err ->
  applyTemplateData data templateData = Panics (PanicError err)
  /\ (forall buf : string, applyTemplateData data templateData <> Returns buf)
  /\ (forall (data' : string) (r : outcome string),
        applyTemplateData data' templateData = r ->
        (exists buf : string, r = Returns buf
           /\ exists t : Template,
                template_Parse data' = Ok t
                /\ template_Execute t templateData = Ok buf)
        \/ (exists err' : error, r = Panics (PanicError err')
              /\ malformed data' templateData err')).
Proof.
  intros Hbad.
  assert (Hpanic : applyTemplateData data templateData = Panics (PanicError err)).
  { unfold applyTemplateData.
    destruct Hbad as [Hp | (t & Hp & He)]; rewrite Hp; cbn; [reflexivity |].
    now rewrite He. }
  split; [exact Hpanic |]. split.
  - intros buf Hbuf. rewrite Hpanic in Hbuf. discriminate.
  - intros data' r <-. unfold applyTemplateData, malformed.
    destruct (template_Parse data') as [t|e] eqn:Hp; cbn.
    + destruct (template_Execute t templateData) as [b|e] eqn:He.
      * left. eauto.
      * right. exists e. split; [reflexivity |]. right. eauto.
    + right. exists e. split; [reflexivity |]. now left.
Qed.

End RenderFacts.

Lemma applyTemplateData_malformed_panics_witness :
  @applyTemplateData demo.template "{{" (@templateData_of demo.shape demo.parents)
  = Panics (PanicError (ErrNew "unclosed action"))
  /\ @applyTemplateData demo.template "{{.Missing}}"
       (@templateData_of demo.shape demo.parents)
     = Panics (PanicError (ErrNew "can't evaluate field Missing")).
Proof.
  split.
  - apply (@applyTemplateData_malformed_panics demo.template).
    left. reflexivity.
  - apply (@applyTemplateData_malformed_panics demo.template).
    right. exists "{{.Missing}}"%string. split; reflexivity.
Defined.

(** ** Loading: absence and fetch failures *)

(** [Load] once its three fetches are known. *)
Ltac load_fetches :=
  unfold Load;
  change (filepath.Join [manifestDir; "*.yaml"%string])
    with "manifests/*.yaml"%string;
  change (filepath.Join [manifestDir; "*.yml"%string])
    with "manifests/*.yml"%string;
  change (filepath.Join [manifestDir; "*.json"%string])
    with "manifests/*.json"%string.

Section LoadFacts.
Context `{Y : YAML}.

Lemma load_scan_absent (fileList : list File) (o : configurationObject)
  (found : bool) :
  Forall (fun file => Filename file <> kubeSysConfigPath) fileList ->
  load_scan fileList o found = Ok (o, found).
Proof.
  induction 1 as [|file files Hne _ IH]; [reflexivity |].
  cbn [load_scan]. apply String.eqb_neq in Hne. now rewrite Hne.
Qed.

Lemma load_patterns_eq :
  load_patterns
  = ["manifests/*.yaml"; "manifests/*.yml"; "manifests/*.json"]%string.
Proof. reflexivity. Qed.

Lemma kubeSysConfigPath_eq :
  kubeSysConfigPath = "manifests/cluster-config.yaml"%string.
Proof. reflexivity. Qed.

Lemma Load_without_control (m : Manifests) (f : FileFetcher)
  (yamlFileList ymlFileList jsonFileList : list File) :
  f "manifests/*.yaml"%string = Ok yamlFileList ->
  f "manifests/*.yml"%string = Ok ymlFileList ->
  f "manifests/*.json"%string = Ok jsonFileList ->
  Forall (fun file => Filename file <> kubeSysConfigPath)
    (yamlFileList ++ ymlFileList ++ jsonFileList) ->
  Load m f = (m, (false, None)).
Proof.
  intros H1 H2 H3 Hall. load_fetches. rewrite H1, H2, H3.
  rewrite <- app_assoc.
  destruct (length (yamlFileList ++ ymlFileList ++ jsonFileList) =? 0)%nat;
    [reflexivity |].
  rewrite load_scan_absent by exact Hall. reflexivity.
Qed.

(** C3: when the three fetches succeed and bring back no file at all, or
    files none of which is [manifests/cluster-config.yaml], [Load] reports
    not found without an error; when a fetch fails, [Load] returns the
    error of the first failing fetch wrapped with that pattern's message.
    In all these cases the receiver is left as it was. *)
Theorem Load_absent_or_fetch_failure (m : Manifests) (f : FileFetcher) :
  (forall yamlFileList ymlFileList jsonFileList : list File,
     f "manifests/*.yaml"%string = Ok yamlFileList ->
     f "manifests/*.yml"%string = Ok ymlFileList ->
     f "manifests/*.json"%string = Ok jsonFileList ->
     yamlFileList ++ ymlFileList ++ jsonFileList = [] ->
     Load m f = (m, (false, None)))
  /\ (forall yamlFileList ymlFileList jsonFileList : list File,
        f "manifests/*.yaml"%string = Ok yamlFileList ->
        f "manifests/*.yml"%string = Ok ymlFileList ->
        f "manifests/*.json"%string = Ok jsonFileList ->
        Forall (fun file => Filename file <> "manifests/cluster-config.yaml"%string)
          (yamlFileList ++ ymlFileList ++ jsonFileList) ->
        Load m f = (m, (false, None)))
  /\ (forall err : error,
        f "manifests/*.yaml"%string = Err err ->
        Load m f = (m, (false, Some (ErrWrap err "failed to load *.yaml files"))))
  /\ (forall (yamlFileList : list File) (err : error),
        f "manifests/*.yaml"%string = Ok yamlFileList ->
        f "manifests/*.yml"%string = Err err ->
        Load m f = (m, (false, Some (ErrWrap err "failed to load *.yml files"))))
  /\ (forall (yamlFileList ymlFileList : list File) (err : error),
        f "manifests/*.yaml"%string = Ok yamlFileList ->
        f "manifests/*.yml"%string = Ok ymlFileList ->
        f "manifests/*.json"%string = Err err ->
        Load m f = (m, (false, Some (ErrWrap err "failed to load *.json files"))))
  /\ ((exists (pattern : string) (err : error),
         In pattern load_patterns /\ f pattern = Err err) ->
      exists (err : error) (context : string),
        Load m f = (m, (false, Some (ErrWrap err context)))).
Proof.
  repeat split.
  - intros y1 y2 j H1 H2 H3 Hnil.
    apply (Load_without_control m f y1 y2 j H1 H2 H3).
    rewrite Hnil. constructor.
  - intros y1 y2 j H1 H2 H3 Hall.
    apply (Load_without_control m f y1 y2 j H1 H2 H3).
    now rewrite kubeSysConfigPath_eq.
  - intros err Herr. load_fetches. now rewrite Herr.
  - intros y1 err H1 Herr. load_fetches. now rewrite H1, Herr.
  - intros y1 y2 err H1 H2 Herr. load_fetches. now rewrite H1, H2, Herr.
  - intros (pattern & err & Hin & Herr). load_fetches.
    destruct (f "manifests/*.yaml"%string) as [y1|e1] eqn:E1; [| eauto].
    destruct (f "manifests/*.yml"%string) as [y2|e2] eqn:E2; [| eauto].
    destruct (f "manifests/*.json"%string) as [j|e3] eqn:E3; [| eauto].
    exfalso. rewrite load_patterns_eq in Hin.
    destruct Hin as [<-|[<-|[<-|[]]]]; congruence.
Qed.

End LoadFacts.

Lemma Load_absent_or_fetch_failure_witness :
  @Load demo.shape demo.yaml demo.empty_manifests demo.unrelated_fetcher
  = (demo.empty_manifests, (false, None))
  /\ @Load demo.shape demo.yaml demo.empty_manifests demo.broken_fetcher
     = (demo.empty_manifests,
        (false,
         Some (ErrWrap (ErrNew "permission denied") "failed to load *.yml files"))).
Proof.
  split.
  - destruct (@Load_absent_or_fetch_failure demo.shape demo.yaml
                demo.empty_manifests demo.unrelated_fetcher)
      as (_ & Hunrelated & _).
    apply (Hunrelated [mkFile "manifests/a.yaml" "a"; mkFile "manifests/b.yaml" "b"]
             [] []); try reflexivity.
    repeat constructor; discriminate.
  - destruct (@Load_absent_or_fetch_failure demo.shape demo.yaml
                demo.empty_manifests demo.broken_fetcher)
      as (_ & _ & _ & Hyml & _).
    apply (Hyml []); reflexivity.
Defined.

(** ** Encodings *)

Ltac each_byte c :=
  destruct c as [[] [] [] [] [] [] [] []]; vm_compute; try reflexivity;
  try discriminate.

Lemma undigit_digit (s : base64.sextet) :
  base64.undigit (base64.digit s) = Some s.
Proof. destruct s as [[[[[[] []] []] []] []] []]; reflexivity. Qed.

Lemma undigit_padding : base64.undigit base64.StdPadding = None.
Proof. reflexivity. Qed.

(** Decoding inverts encoding, three bytes at a time. *)
Lemma DecodeString_EncodeToString_upto (n : nat) (src : string) :
  (String.length src <= n)%nat ->
  base64.DecodeString (base64.EncodeToString src) = Some src.
Proof.
  revert src. induction n as [n IH] using lt_wf_ind. intros src Hlen.
  destruct src as [|[a0 a1 a2 a3 a4 a5 a6 a7] src]; [reflexivity |].
  destruct src as [|[b0 b1 b2 b3 b4 b5 b6 b7] src].
  { cbn [base64.EncodeToString base64.DecodeString].
    rewrite !undigit_digit, undigit_padding. reflexivity. }
  destruct src as [|[c0 c1 c2 c3 c4 c5 c6 c7] src].
  { cbn [base64.EncodeToString base64.DecodeString].
    rewrite !undigit_digit, undigit_padding. reflexivity. }
  cbn [base64.EncodeToString base64.DecodeString].
  rewrite !undigit_digit.
  cbn [String.length] in Hlen.
  rewrite (IH (String.length src)) by lia. reflexivity.
Qed.

Lemma DecodeString_EncodeToString (src : string) :
  base64.DecodeString (base64.EncodeToString src) = Some src.
Proof. now apply (DecodeString_EncodeToString_upto (String.length src)). Qed.

Lemma EncodeToString_nonempty (src : string) :
  src <> EmptyString -> base64.EncodeToString src <> EmptyString.
Proof.
  intros Hne Henc. pose proof (DecodeString_EncodeToString src) as Hd.
  rewrite Henc in Hd. cbn in Hd. congruence.
Qed.

Lemma unreserved_printable (c : ascii) :
  dataurl.isUnreserved c = true -> printable c = true.
Proof. each_byte c. Qed.

Lemma hex_digits_printable (c : ascii) :
  printable (dataurl.hex_digit (nat_of_ascii c / 16)) = true
  /\ printable (dataurl.hex_digit (nat_of_ascii c mod 16)) = true.
Proof. each_byte c; split; reflexivity. Qed.

Lemma unreserved_not_percent (c : ascii) :
  dataurl.isUnreserved c = true -> Ascii.eqb c "%" = false.
Proof. each_byte c. Qed.

Lemma hex_roundtrip (c : ascii) :
  dataurl.hex_value (dataurl.hex_digit (nat_of_ascii c / 16))
  = Some (nat_of_ascii c / 16)%nat
  /\ dataurl.hex_value (dataurl.hex_digit (nat_of_ascii c mod 16))
     = Some (nat_of_ascii c mod 16)%nat
  /\ ascii_of_nat (nat_of_ascii c / 16 * 16 + nat_of_ascii c mod 16) = c.
Proof. each_byte c; repeat split. Qed.

Lemma Escape_printable (data : string) :
  all_bytes printable (dataurl.Escape data) = true.
Proof.
  induction data as [|c data IH]; [reflexivity |].
  cbn [dataurl.Escape].
  destruct (dataurl.isUnreserved c) eqn:Ec; cbn [all_bytes].
  - now rewrite (unreserved_printable c Ec), IH.
  - destruct (hex_digits_printable c) as [-> ->]. now rewrite IH.
Qed.

Lemma Unescape_Escape (data : string) :
  dataurl.Unescape (dataurl.Escape data) = Some data.
Proof.
  induction data as [|c data IH]; [reflexivity |].
  cbn [dataurl.Escape].
  destruct (dataurl.isUnreserved c) eqn:Ec; cbn [dataurl.Unescape].
  - rewrite (unreserved_not_percent c Ec), IH. reflexivity.
  - rewrite Ascii.eqb_refl.
    destruct (hex_roundtrip c) as (Hh & Hl & Hc).
    rewrite Hh, Hl, IH, Hc. reflexivity.
Qed.

Lemma all_bytes_app (P : ascii -> bool) (s t : string) :
  all_bytes P (s +:+ t) = all_bytes P s && all_bytes P t.
Proof.
  induction s as [|c s IH]; [reflexivity |].
  rewrite app_cons. cbn [all_bytes]. rewrite IH. apply andb_assoc.
Qed.

Lemma printable_no_line_break (s : string) :
  all_bytes printable s = true -> line_breaks s = 0%nat.
Proof.
  induction s as [|c s IH]; [reflexivity |].
  cbn [all_bytes line_breaks]. intros [Hc Hs]%andb_true_iff.
  rewrite (IH Hs). destruct (Ascii.eqb c strings.LF) eqn:E; [| reflexivity].
  apply Ascii.eqb_eq in E. subst c. discriminate.
Qed.

(** ** The worker registries block *)

Lemma concat_empty_cons (x : string) (l : list string) :
  String.concat EmptyString (x :: l) = x +:+ String.concat EmptyString l.
Proof.
  destruct l as [|y l]; [cbn; now rewrite app_empty_r | reflexivity].
Qed.

Lemma fold_left_append {A : Type} (g : A -> string) (l : list A) (b : string) :
  fold_left (fun b x => b +:+ g x) l b
  = b +:+ String.concat EmptyString (map g l).
Proof.
  revert b. induction l as [|x l IH]; intros b.
  - cbn. now rewrite app_empty_r.
  - cbn [fold_left map]. rewrite IH, concat_empty_cons. apply app_assoc_s.
Qed.

(** The buffer after both loops: the default line followed by the text
    each entry appends. *)
Lemma registries_buffer_blocks (icss : list ImageContentSource) :
  registries_buffer icss
  = registries_default_line
    +:+ String.concat EmptyString
          (map (fun ics =>
                  registry_block (Source ics)
                  +:+ String.concat EmptyString
                        (map mirror_block (Mirrors ics)))
             icss).
Proof.
  unfold registries_buffer. rewrite app_nil.
  rewrite <- (fold_left_append
                (fun ics =>
                   registry_block (Source ics)
                   +:+ String.concat EmptyString (map mirror_block (Mirrors ics)))).
  generalize registries_default_line. induction icss as [|ics icss IH]; intros b.
  - reflexivity.
  - cbn [fold_left]. rewrite fold_left_append, IH, app_assoc_s. reflexivity.
Qed.

Ltac flatten_text :=
  repeat (rewrite app_assoc_s || rewrite app_cons || rewrite app_nil).

(** The three format strings of the code, filled in, are the lines the spec
    asks for. *)
Lemma registries_default_line_lines :
  registries_default_line = text_of_lines default_lines.
Proof. vm_compute. reflexivity. Qed.

Lemma registry_block_lines (source : string) :
  registry_block source = text_of_lines (registry_lines source).
Proof.
  unfold registry_block, registry_lines, text_of_lines, quoted, dq, nl,
    strings.newline, strings.LF.
  flatten_text. reflexivity.
Qed.

Lemma mirror_block_lines (mirror : string) :
  mirror_block mirror = text_of_lines (mirror_lines mirror).
Proof.
  unfold mirror_block, mirror_lines, text_of_lines, quoted, dq, nl,
    strings.newline, strings.LF.
  flatten_text. reflexivity.
Qed.

Lemma text_of_lines_app (ls ls' : list string) :
  text_of_lines (ls ++ ls') = text_of_lines ls +:+ text_of_lines ls'.
Proof.
  induction ls as [|l ls IH]; [reflexivity |].
  cbn [app text_of_lines]. rewrite IH, app_assoc_s, app_cons. reflexivity.
Qed.

Lemma text_of_lines_flat_map {A : Type} (g : A -> list string) (l : list A) :
  text_of_lines (flat_map g l)
  = String.concat EmptyString (map (fun x => text_of_lines (g x)) l).
Proof.
  induction l as [|x l IH]; [reflexivity |].
  cbn [flat_map map]. now rewrite text_of_lines_app, concat_empty_cons, IH.
Qed.

Lemma concat_map_ext {A : Type} (g g' : A -> string) (l : list A) :
  (forall x, g x = g' x) ->
  String.concat EmptyString (map g l) = String.concat EmptyString (map g' l).
Proof.
  intros Hext. induction l as [|x l IH]; [reflexivity |].
  cbn [map]. now rewrite !concat_empty_cons, Hext, IH.
Qed.

Lemma registries_buffer_text (icss : list ImageContentSource) :
  registries_buffer icss = registries_text icss.
Proof.
  rewrite registries_buffer_blocks. unfold registries_text, registries_lines.
  rewrite text_of_lines_app, text_of_lines_flat_map,
    registries_default_line_lines.
  f_equal. apply concat_map_ext. intros ics.
  rewrite text_of_lines_app, text_of_lines_flat_map, registry_block_lines.
  f_equal. apply concat_map_ext. intros mirror. apply mirror_block_lines.
Qed.

Lemma String_ASCII_text_plain (data : string) :
  dataurl.String_ASCII data "text/plain"
  = ("data:text/plain," +:+ dataurl.Escape data)%string.
Proof.
  unfold dataurl.String_ASCII. generalize (dataurl.Escape data). intros e.
  reflexivity.
Qed.

(** C4: the buffer built by [aroWorkerRegistries] is, line by line, the
    default unqualified-search-registries line followed, entry by entry in
    list order, by a [[registry]] block whose location line carries the
    entry's source, each followed by one [[registry.mirror]] block per
    mirror in order, whose location line carries the mirror; the function
    returns it as [data:text/plain,] followed by its percent-escaped bytes,
    a string of printable ASCII without a line break from which the block
    reads back.  For the single entry registry.local with mirrors mirror1
    and mirror2 the block has one [[registry]] header, located at
    registry.local, and two [[registry.mirror]] headers, and the returned
    data URL is the one written out. *)
Theorem aroWorkerRegistries_layout (icss : list ImageContentSource) :
  registries_buffer icss = registries_text icss
  /\ aroWorkerRegistries icss
     = ("data:text/plain," +:+ dataurl.Escape (registries_text icss))%string
  /\ dataurl.Unescape (dataurl.Escape (registries_text icss))
     = Some (registries_text icss)
  /\ all_bytes printable (aroWorkerRegistries icss) = true
  /\ line_breaks (aroWorkerRegistries icss) = 0%nat
  /\ strings.Count
       (registries_text [mkICS "registry.local" ["mirror1"; "mirror2"]%string])
       "[[registry]]" = 1%nat
  /\ strings.Count
       (registries_text [mkICS "registry.local" ["mirror1"; "mirror2"]%string])
       (text_of_lines
          ["[[registry]]"; "  prefix = " +:+ quoted EmptyString;
           "  location = " +:+ quoted "registry.local"]%string) = 1%nat
  /\ strings.Count
       (registries_text [mkICS "registry.local" ["mirror1"; "mirror2"]%string])
       "[[registry.mirror]]" = 2%nat
  /\ registries_lines [mkICS "registry.local" ["mirror1"; "mirror2"]%string]
     = [("unqualified-search-registries = ["
         +:+ quoted "registry.access.redhat.com" +:+ ", " +:+ quoted "docker.io"
         +:+ "]");
        EmptyString;
        "[[registry]]";
        "  prefix = " +:+ quoted EmptyString;
        "  location = " +:+ quoted "registry.local";
        "  mirror-by-digest-only = true";
        EmptyString;
        "  [[registry.mirror]]";
        "    location = " +:+ quoted "mirror1";
        EmptyString;
        "  [[registry.mirror]]";
        "    location = " +:+ quoted "mirror2"]%string
  /\ aroWorkerRegistries [mkICS "registry.local" ["mirror1"; "mirror2"]%string]
     = ("data:text/plain,unqualified-search-registries%20%3D%20%5B%22"
        +:+ "registry.access.redhat.com%22%2C%20%22docker.io%22%5D%0A"
        +:+ "%0A%5B%5Bregistry%5D%5D%0A"
        +:+ "%20%20prefix%20%3D%20%22%22%0A"
        +:+ "%20%20location%20%3D%20%22registry.local%22%0A"
        +:+ "%20%20mirror-by-digest-only%20%3D%20true%0A"
        +:+ "%0A%20%20%5B%5Bregistry.mirror%5D%5D%0A"
        +:+ "%20%20%20%20location%20%3D%20%22mirror1%22%0A"
        +:+ "%0A%20%20%5B%5Bregistry.mirror%5D%5D%0A"
        +:+ "%20%20%20%20location%20%3D%20%22mirror2%22%0A")%string.
Proof.
  assert (Hurl : aroWorkerRegistries icss
                 = ("data:text/plain," +:+ dataurl.Escape (registries_text icss))%string).
  { unfold aroWorkerRegistries. rewrite registries_buffer_text.
    apply String_ASCII_text_plain. }
  assert (Hprint : all_bytes printable (aroWorkerRegistries icss) = true).
  { rewrite Hurl, all_bytes_app, Escape_printable. vm_compute. reflexivity. }
  split; [apply registries_buffer_text |].
  split; [exact Hurl |].
  split; [apply Unescape_Escape |].
  split; [exact Hprint |].
  split; [apply printable_no_line_break, Hprint |].
  repeat apply conj; vm_compute; reflexivity.
Qed.

(** ** Sorting by file name *)

Lemma name_le_total (f g : File) : name_le f g \/ name_le g f.
Proof. apply String.leb_total. Qed.

Lemma name_le_trans (f g k : File) : name_le f g -> name_le g k -> name_le f k.
Proof.
  unfold name_le. intros Hfg Hgk.
  apply Is_true_true. apply Is_true_true in Hfg, Hgk.
  exact (transitivity (R := String.le) Hfg Hgk).
Qed.

Lemma insert_file_perm (f : File) (files : list File) :
  insert_file f files ≡ₚ f :: files.
Proof.
  induction files as [|g files IH]; [reflexivity |].
  cbn [insert_file]. destruct (String.leb (Filename f) (Filename g)).
  - reflexivity.
  - rewrite IH. apply Permutation_swap.
Qed.

Lemma SortFiles_perm (files : list File) : SortFiles files ≡ₚ files.
Proof.
  induction files as [|f files IH]; [reflexivity |].
  cbn [SortFiles]. now rewrite insert_file_perm, IH.
Qed.

Lemma insert_file_sorted (f : File) (files : list File) :
  sorted_by_name files -> sorted_by_name (insert_file f files).
Proof.
  unfold sorted_by_name.
  induction 1 as [|g files Hs IH Hg]; cbn [insert_file].
  - repeat constructor.
  - destruct (String.leb (Filename f) (Filename g)) eqn:E.
    + constructor; [now constructor |].
      constructor; [exact E |].
      eapply Forall_impl; [exact Hg |].
      intros k Hk. now apply (name_le_trans f g k).
    + constructor; [exact IH |].
      rewrite insert_file_perm. constructor; [| exact Hg].
      destruct (name_le_total f g) as [Hfg | Hgf]; [| exact Hgf].
      unfold name_le in Hfg. congruence.
Qed.

Lemma SortFiles_sorted (files : list File) : sorted_by_name (SortFiles files).
Proof.
  induction files as [|f files IH]; [constructor |].
  cbn [SortFiles]. now apply insert_file_sorted.
Qed.

(** ** What a successful [Generate] has done *)

Section GenerateFacts.
Context `{Y : YAML} `{T : TextTemplate} `{K : PackageConsts}.

Lemma render_asset_files_inv (templateData : bootkubeTemplateData)
  (asset_files files out : list File) :
  render_asset_files templateData asset_files files = Returns out ->
  exists new : list File,
    out = files ++ new /\ Forall2 (rendered_from templateData) asset_files new.
Proof.
  revert files. induction asset_files as [|f fs IH]; intros files.
  - cbn. intros [= <-]. exists []. now rewrite app_nil_r.
  - cbn [render_asset_files].
    destruct (applyTemplateData (Data f) templateData) as [data|p] eqn:E;
      cbn; [| discriminate].
    intros Hout. destruct (IH _ Hout) as (new & -> & Hnew).
    eexists (_ :: new). rewrite <- app_assoc. split; [reflexivity |].
    constructor; [| exact Hnew]. split; [reflexivity | exact E].
Qed.

Lemma render_assets_inv (dependencies : Parents)
  (templateData : bootkubeTemplateData) (assets : list BootkubeAsset)
  (files out : list File) :
  render_assets dependencies templateData assets files = Returns out ->
  exists new : list File,
    out = files ++ new
    /\ Forall2 (rendered_from templateData)
         (concat (map (bootkube_Files dependencies) assets)) new.
Proof.
  revert files. induction assets as [|a assets IH]; intros files.
  - cbn. intros [= <-]. exists []. rewrite app_nil_r. split; [easy | constructor].
  - cbn [render_assets map concat].
    destruct (render_asset_files templateData (bootkube_Files dependencies a)
                files) as [mid|p] eqn:E; cbn; [| discriminate].
    intros Hout.
    destruct (render_asset_files_inv _ _ _ _ E) as (new1 & -> & H1).
    destruct (IH _ Hout) as (new2 & -> & H2).
    exists (new1 ++ new2). rewrite <- app_assoc. split; [reflexivity |].
    now apply Forall2_app.
Qed.

Lemma generateBootKubeManifests_inv (dependencies : Parents)
  (rendered : list File) :
  generateBootKubeManifests dependencies = Returns rendered ->
  Forall2 (rendered_from (templateData_of dependencies))
    (template_files dependencies) rendered.
Proof.
  unfold generateBootKubeManifests. intros Hr.
  destruct (render_assets_inv _ _ _ _ _ Hr) as (new & -> & Hnew). exact Hnew.
Qed.

Lemma rendered_names (templateData : bootkubeTemplateData)
  (templates rendered : list File) :
  Forall2 (rendered_from templateData) templates rendered ->
  map Filename rendered = map rendered_name templates.
Proof.
  induction 1 as [|f r fs rs [Hn _] _ IH]; [reflexivity |].
  cbn. now rewrite Hn, IH.
Qed.

(** The receiver after a [Generate] that returned no error. *)
Lemma Generate_success (m m' : Manifests) (dependencies : Parents) :
  Generate m dependencies = Returns (m', None) ->
  exists (h' : gmap addr VSpherePlatform)
         (redactedConfig kubeSysConfigData : string) (rendered : list File),
    redactedInstallConfig (store dependencies)
      (installConfig_Config dependencies) = Returns (h', Ok redactedConfig)
    /\ yaml_Marshal_object
         (configMap "kube-system" "cluster-config-v1"
            {[ "install-config"%string := redactedConfig ]})
       = Ok kubeSysConfigData
    /\ generateBootKubeManifests dependencies = Returns rendered
    /\ m' = mkManifests
              (Some (configMap "kube-system" "cluster-config-v1"
                       {[ "install-config"%string := redactedConfig ]}))
              (SortFiles
                 (mkFile kubeSysConfigPath kubeSysConfigData
                  :: rendered ++ collaborator_files dependencies)).
Proof.
  unfold Generate.
  destruct (redactedInstallConfig _ _) as [[h' [redactedConfig|e]]|p] eqn:Hr;
    cbn [mbind outcome_bind]; try discriminate.
  destruct (yaml_Marshal_object _) as [data|e] eqn:Hm; [| discriminate].
  destruct (generateBootKubeManifests dependencies) as [rendered|p] eqn:Hb;
    cbn [mbind outcome_bind]; [| discriminate].
  intros [= <-]. exists h', redactedConfig, data, rendered.
  split; [reflexivity |]. split; [exact Hm |]. split; [reflexivity |].
  unfold collaborator_files. cbn [map concat fold_left FileList KubeSysConfig].
  rewrite app_nil_r, <- !app_assoc. reflexivity.
Qed.

(** The receiver after a [Load] that reported the manifests found. *)
Lemma Load_found (m m' : Manifests) (f : FileFetcher) (err : option error) :
  Load m f = (m', (true, err)) ->
  exists (yamlFileList ymlFileList jsonFileList : list File)
         (kubeSysConfig : configurationObject),
    f "manifests/*.yaml"%string = Ok yamlFileList
    /\ f "manifests/*.yml"%string = Ok ymlFileList
    /\ f "manifests/*.json"%string = Ok jsonFileList
    /\ load_scan (yamlFileList ++ ymlFileList ++ jsonFileList)
         zero_configurationObject false = Ok (kubeSysConfig, true)
    /\ err = None
    /\ m' = mkManifests (Some kubeSysConfig)
              (SortFiles (yamlFileList ++ ymlFileList ++ jsonFileList)).
Proof.
  load_fetches.
  destruct (f "manifests/*.yaml"%string) as [y1|e]; [| discriminate].
  destruct (f "manifests/*.yml"%string) as [y2|e]; [| discriminate].
  destruct (f "manifests/*.json"%string) as [j|e]; [| discriminate].
  rewrite <- app_assoc.
  destruct (length (y1 ++ y2 ++ j) =? 0)%nat; [discriminate |].
  destruct (load_scan _ _ _) as [[o found]|e] eqn:Hscan; [| discriminate].
  destruct found; cbn [negb KubeSysConfig FileList]; [| discriminate].
  intros [= <- <-]. exists y1, y2, j, o. repeat split. exact Hscan.
Qed.

(** C6: after a [Generate] that returns no error, and after a [Load] that
    reports found, every file of the receiver's [FileList] comes no later in
    bytewise lexicographic file-name order than all files after it. *)
Theorem FileList_sorted_after_Generate_and_Load (m m' : Manifests) :
  (forall dependencies : Parents,
     Generate m dependencies = Returns (m', None) ->
     sorted_by_name (FileList m'))
  /\ (forall (f : FileFetcher) (err : option error),
        Load m f = (m', (true, err)) -> sorted_by_name (FileList m')).
Proof.
  split.
  - intros dependencies Hg.
    destruct (Generate_success _ _ _ Hg) as (? & ? & ? & ? & _ & _ & _ & ->).
    apply SortFiles_sorted.
  - intros f err Hl.
    destruct (Load_found _ _ _ _ Hl) as (? & ? & ? & ? & _ & _ & _ & _ & _ & ->).
    apply SortFiles_sorted.
Qed.

(** The names [Generate] emits are the input names, rearranged. *)
Lemma Generate_names_perm (m m' : Manifests) (dependencies : Parents) :
  Generate m dependencies = Returns (m', None) ->
  map Filename (FileList m') ≡ₚ emitted_names dependencies.
Proof.
  intros Hg.
  destruct (Generate_success _ _ _ Hg)
    as (h' & rc & data & rendered & _ & _ & Hr & ->).
  cbn [FileList]. rewrite SortFiles_perm. unfold emitted_names.
  cbn [map Filename]. rewrite map_app.
  now rewrite (rendered_names _ _ _ (generateBootKubeManifests_inv _ _ Hr)).
Qed.

(** C8, as the code has it: [Generate] emits, in sorted order, exactly the
    control manifest's name, one stripped name per bundled template file and
    the collaborators' file names as they are; it neither renames nor drops
    a clashing file, so the emitted names are pairwise distinct exactly when
    those input names are. *)
Theorem Generate_names_distinct_iff_inputs (m m' : Manifests)
  (dependencies : Parents) :
  Generate m dependencies = Returns (m', None) ->
  map Filename (FileList m') ≡ₚ emitted_names dependencies
  /\ (NoDup (map Filename (FileList m')) <-> NoDup (emitted_names dependencies)).
Proof.
  intros Hg. pose proof (Generate_names_perm _ _ _ Hg) as Hperm.
  split; [exact Hperm |]. now rewrite Hperm.
Qed.

End GenerateFacts.

Section PullSecretFacts.
Context `{Y : YAML} `{T : TextTemplate} `{K : PackageConsts}.

(** C9: when [Generate] returns no error on a configuration with a
    non-empty pull secret, the one template context all bundled templates
    are rendered with holds the base64 encoding of the original pull secret
    (non-empty, and decoding to the pull secret), each rendered file in the
    file list being the output of its template on that context, while the
    install-config string of the control manifest is the serialization of a
    configuration whose pull secret is empty. *)
Theorem pull_secret_encoded_in_template_context (m m' : Manifests)
  (dependencies : Parents) :
  PullSecret (installConfig_Config dependencies) <> EmptyString ->
  Generate m dependencies = Returns (m', None) ->
  PullSecretBase64 (templateData_of dependencies)
  = base64.EncodeToString (PullSecret (installConfig_Config dependencies))
  /\ base64.DecodeString (PullSecretBase64 (templateData_of dependencies))
     = Some (PullSecret (installConfig_Config dependencies))
  /\ PullSecretBase64 (templateData_of dependencies) <> EmptyString
  /\ (exists rendered : list File,
        Forall2 (rendered_from (templateData_of dependencies))
          (template_files dependencies) rendered
        /\ Forall (fun r => r ∈ FileList m') rendered)
  /\ (exists (v : InstallConfigValue) (redactedConfig : string),
        value_of (store dependencies) (installConfig_Config dependencies)
        = Returns v
        /\ PullSecretValue v = PullSecret (installConfig_Config dependencies)
        /\ PullSecretValue (redacted_value v) = EmptyString
        /\ yaml_Marshal_InstallConfig (redacted_value v) = Ok redactedConfig
        /\ KubeSysConfig m'
           = Some (configMap "kube-system" "cluster-config-v1"
                     {[ "install-config"%string := redactedConfig ]})).
Proof.
  intros Hne Hg.
  destruct (Generate_success _ _ _ Hg)
    as (h' & rc & data & rendered & Hred & _ & Hr & ->).
  split; [reflexivity |].
  split; [apply DecodeString_EncodeToString |].
  split; [now apply EncodeToString_nonempty |].
  split.
  - exists rendered. split; [now apply generateBootKubeManifests_inv |].
    apply Forall_forall. intros r Hin. cbn [FileList].
    rewrite SortFiles_perm. apply elem_of_cons. right.
    apply elem_of_app. left. exact Hin.
  - destruct (redactedInstallConfig_returns _ _ _ _ Hred) as (v & Hv & Hrc).
    exists v, rc. split; [exact Hv |].
    split; [apply (value_of_inv _ _ _ Hv) |].
    split; [reflexivity |]. split; [now symmetry | reflexivity].
Qed.

End PullSecretFacts.

(** ** The small installation, generated and loaded back *)

Lemma demo_Generate :
  exists m' : Manifests,
    @Generate demo.shape demo.yaml demo.template demo.consts
      demo.empty_manifests demo.parents = Returns (m', None)
    /\ FileList m'
       = [mkFile "manifests/cluster-config.yaml"
            ("pullSecret: []" +:+ nl +:+ "publish: Internal" +:+ nl
             +:+ "vsphere: [][]" +:+ nl);
          mkFile "manifests/cluster-dns-02-config.yml" "dns";
          mkFile "manifests/cluster-ingress-02-config.yml" "ingress";
          mkFile "manifests/etcd-namespace.yaml" "etcd";
          mkFile "manifests/openshift-config-secret-pull-secret.yaml"
            "pull: YWJj"]%string.
Proof. eexists. split; vm_compute; reflexivity. Qed.

Lemma FileList_sorted_after_Generate_and_Load_witness :
  exists m' : Manifests,
    @Generate demo.shape demo.yaml demo.template demo.consts
      demo.empty_manifests demo.parents = Returns (m', None)
    /\ sorted_by_name (FileList m').
Proof.
  destruct demo_Generate as (m' & Hg & _). exists m'. split; [exact Hg |].
  exact (proj1 (@FileList_sorted_after_Generate_and_Load demo.shape demo.yaml
                  demo.template demo.consts demo.empty_manifests m')
           demo.parents Hg).
Defined.

Lemma Generate_names_distinct_iff_inputs_witness :
  exists m' : Manifests,
    @Generate demo.shape demo.yaml demo.template demo.consts
      demo.empty_manifests demo.parents = Returns (m', None)
    /\ NoDup (map Filename (FileList m')).
Proof.
  destruct demo_Generate as (m' & Hg & _). exists m'. split; [exact Hg |].
  destruct (@Generate_names_distinct_iff_inputs demo.shape demo.yaml
              demo.template demo.consts demo.empty_manifests m' demo.parents Hg)
    as [_ Hiff].
  apply Hiff. refine (bool_decide_unpack _ _). vm_compute. exact I.
Defined.

(** C8, refuted as stated: a bundled asset carrying [cvo-overrides.yaml]
    next to [cvo-overrides.yaml.template] makes a successful [Generate] emit
    the name [manifests/cvo-overrides.yaml] twice. *)
Lemma Generate_emits_a_name_twice :
  exists m' : Manifests,
    @Generate demo.shape demo.yaml demo.template demo.consts
      demo.empty_manifests
      (demo.parents_with demo.bootkube_clash demo.collaborators)
    = Returns (m', None)
    /\ map Filename (FileList m')
       = ["manifests/cluster-config.yaml";
          "manifests/cluster-dns-02-config.yml";
          "manifests/cluster-ingress-02-config.yml";
          "manifests/cvo-overrides.yaml";
          "manifests/cvo-overrides.yaml"]%string
    /\ ~ NoDup (map Filename (FileList m')).
Proof.
  eexists. split; [vm_compute; reflexivity |].
  split; [vm_compute; reflexivity |].
  refine (proj1 (bool_decide_eq_false _) _). vm_compute. reflexivity.
Qed.

Lemma pull_secret_encoded_in_template_context_witness :
  exists m' : Manifests,
    @Generate demo.shape demo.yaml demo.template demo.consts
      demo.empty_manifests demo.parents = Returns (m', None)
    /\ PullSecretBase64 (@templateData_of demo.shape demo.parents)
       = "YWJj"%string
    /\ base64.DecodeString "YWJj" = Some "abc"%string
    /\ mkFile "manifests/openshift-config-secret-pull-secret.yaml" "pull: YWJj"
       ∈ FileList m'.
Proof.
  destruct demo_Generate as (m' & Hg & Hfiles). exists m'.
  split; [exact Hg |].
  destruct (@pull_secret_encoded_in_template_context demo.shape demo.yaml
              demo.template demo.consts demo.empty_manifests m' demo.parents)
    as (Henc & Hdec & _); [discriminate | exact Hg |].
  split; [exact Henc |]. split; [exact Hdec |].
  rewrite Hfiles. apply list_elem_of_In. cbn. tauto.
Defined.

(** C2, refuted as stated: a collaborator file that none of the three load
    patterns matches is generated and persisted, and [Load] on the persisted
    files reports found with a file list in which that name is missing. *)
Lemma Load_misses_an_unmatched_generated_file :
  exists m1 m2 : Manifests,
    @Generate demo.shape demo.yaml demo.template demo.consts
      demo.empty_manifests
      (demo.parents_with demo.bootkube demo.collaborators_txt)
    = Returns (m1, None)
    /\ @Load demo.shape demo.yaml demo.empty_manifests
         (disk_fetcher (persist (FileList m1) ∅))
       = (m2, (true, None))
    /\ In "manifests/cluster-ingress-02-config.txt"%string
         (map Filename (FileList m1))
    /\ ~ In "manifests/cluster-ingress-02-config.txt"%string
         (map Filename (FileList m2)).
Proof.
  eexists. eexists. split; [vm_compute; reflexivity |].
  split; [vm_compute; reflexivity |].
  split; [vm_compute; tauto |].
  vm_compute. intros [H|[H|[H|[]]]]; discriminate.
Qed.

(** ** The persisted directory *)

Lemma map_as_fmap {A B : Type} (g : A -> B) (l : list A) : map g l = g <$> l.
Proof. induction l as [|x l IH]; [reflexivity | cbn; now rewrite IH]. Qed.

Lemma persist_lookup_inv (files : list File) (disk : gmap string string)
  (name data : string) :
  persist files disk !! name = Some data ->
  (exists f : File, f ∈ files /\ Filename f = name /\ Data f = data)
  \/ disk !! name = Some data.
Proof.
  revert disk. induction files as [|f files IH]; intros disk; [now right |].
  cbn [persist fold_left]. intros Hl.
  destruct (IH _ Hl) as [(g & Hg & Hn & Hd) | Hins].
  - left. exists g. split; [now apply elem_of_cons; right | easy].
  - apply lookup_insert_Some in Hins as [[<- <-] | [_ Hdisk]].
    + left. exists f. split; [apply elem_of_cons; now left | easy].
    + now right.
Qed.

Lemma persist_keeps (files : list File) (disk : gmap string string)
  (name : string) :
  is_Some (disk !! name) -> is_Some (persist files disk !! name).
Proof.
  revert disk. induction files as [|f files IH]; intros disk Hs; [exact Hs |].
  cbn [persist fold_left]. apply IH, lookup_insert_is_Some'. now right.
Qed.

Lemma persist_stores (files : list File) (disk : gmap string string) (f : File) :
  f ∈ files -> is_Some (persist files disk !! Filename f).
Proof.
  revert disk. induction files as [|g files IH]; intros disk Hin.
  - now apply elem_of_nil in Hin.
  - cbn [persist fold_left]. apply elem_of_cons in Hin as [-> | Hin].
    + apply persist_keeps, lookup_insert_is_Some'. now left.
    + now apply IH.
Qed.

(** What a fetch from the directory brings back. *)
Lemma disk_fetcher_spec (disk : gmap string string) (pattern : string) :
  exists l : list File,
    disk_fetcher disk pattern = Ok l
    /\ (forall f : File,
          f ∈ l <->
          disk !! Filename f = Some (Data f)
          /\ filepath.Match pattern (Filename f) = true)
    /\ NoDup (map Filename l).
Proof.
  eexists. split; [reflexivity |]. split.
  - intros f. rewrite SortFiles_perm, map_as_fmap, list_elem_of_fmap. split.
    + intros ([name data] & -> & Hin).
      apply list_elem_of_filter in Hin as [Hm Hin].
      apply elem_of_map_to_list in Hin. now split.
    + intros [Hl Hm]. exists (Filename f, Data f). split; [now destruct f |].
      apply list_elem_of_filter. split; [exact Hm |].
      now apply elem_of_map_to_list.
  - rewrite SortFiles_perm, !map_as_fmap, <- list_fmap_compose.
    change (Filename ∘ (fun kv : string * string => mkFile kv.1 kv.2))
      with (@fst string string).
    apply (sublist_NoDup _ ((map_to_list disk).*1));
      [apply NoDup_fst_map_to_list | apply fmap_sublist, sublist_filter].
Qed.

Section RoundTrip.
Context `{Y : YAML} `{T : TextTemplate} `{K : PackageConsts}.

Lemma load_scan_single (l1 l2 : list File) (file : File)
  (o : configurationObject) (found : bool) :
  Filename file = kubeSysConfigPath ->
  Forall (fun g => Filename g <> kubeSysConfigPath) l1 ->
  Forall (fun g => Filename g <> kubeSysConfigPath) l2 ->
  load_scan (l1 ++ file :: l2) o found
  = match yaml_Unmarshal_object (Data file) o with
    | Ok o' => Ok (o', true)
    | Err err => Err (ErrWrap err ("failed to unmarshal " +:+ kubeSysConfigPath))
    end.
Proof.
  intros Hf H1 H2. induction H1 as [|g l1 Hg _ IH].
  - cbn [app load_scan]. rewrite Hf, String.eqb_refl.
    destruct (yaml_Unmarshal_object (Data file) o) as [o'|e]; [| reflexivity].
    now apply load_scan_absent.
  - cbn [app load_scan]. apply String.eqb_neq in Hg. now rewrite Hg.
Qed.

Lemma loadable_cases (name : string) :
  loadable name = true ->
  filepath.Match "manifests/*.yaml" name = true
  \/ filepath.Match "manifests/*.yml" name = true
  \/ filepath.Match "manifests/*.json" name = true.
Proof.
  unfold loadable. rewrite load_patterns_eq. cbn [existsb].
  rewrite orb_false_r. intros Hany.
  apply orb_true_iff in Hany as [Hm|Hany]; [now left |].
  apply orb_true_iff in Hany as [Hm|Hm]; [right; now left | right; now right].
Qed.

(** C2, as the code has it: when [Generate] returns no error, every name it
    emits matches one of the three patterns of [Load], no template or
    collaborator file takes the name of the control manifest, and the parser
    reads the serialized control object back as that object, then persisting
    the file list into an empty directory and running [Load] on it reports
    found without error, with the same control object and a file list of the
    same set of file names. *)
Theorem Generate_persist_Load_roundtrip (m m0 m1 : Manifests)
  (dependencies : Parents) :
  Generate m dependencies = Returns (m1, None) ->
  Forall (fun name => loadable name = true) (emitted_names dependencies) ->
  kubeSysConfigPath
    ∉ map rendered_name (template_files dependencies)
      ++ map Filename (collaborator_files dependencies) ->
  (forall (o : configurationObject) (data : string),
     KubeSysConfig m1 = Some o ->
     yaml_Marshal_object o = Ok data ->
     yaml_Unmarshal_object data zero_configurationObject = Ok o) ->
  exists m2 : Manifests,
    Load m0 (disk_fetcher (persist (FileList m1) ∅)) = (m2, (true, None))
    /\ KubeSysConfig m2 = KubeSysConfig m1
    /\ (forall name : string,
          name ∈ map Filename (FileList m2) <-> name ∈ map Filename (FileList m1)).
Proof.
  intros Hg Hloadable Hfresh Hyaml.
  pose proof (Generate_names_perm _ _ _ Hg) as Hperm.
  destruct (Generate_success _ _ _ Hg)
    as (h' & rc & data & rendered & _ & Hm & Hr & ->).
  cbn [FileList KubeSysConfig] in *.
  set (o := configMap "kube-system" "cluster-config-v1"
              {[ "install-config"%string := rc ]}) in *.
  set (ctl := mkFile kubeSysConfigPath data) in *.
  set (files := SortFiles (ctl :: rendered ++ collaborator_files dependencies)) in *.
  set (disk := persist files ∅).
  specialize (Hyaml o data eq_refl Hm).
  assert (Hctl_in : ctl ∈ files).
  { unfold files. rewrite SortFiles_perm. apply elem_of_cons. now left. }
  assert (Hnames : forall f, f ∈ files -> loadable (Filename f) = true).
  { intros f Hf. rewrite Forall_forall in Hloadable. apply Hloadable.
    rewrite <- Hperm, map_as_fmap. now apply list_elem_of_fmap_2. }
  assert (Hdata : forall f, f ∈ files -> Filename f = kubeSysConfigPath ->
                            Data f = data).
  { intros f Hf Hn. unfold files in Hf. rewrite SortFiles_perm in Hf.
    apply elem_of_cons in Hf as [-> | Hf]; [reflexivity |].
    exfalso. apply Hfresh. rewrite <- Hn.
    rewrite <- (rendered_names _ _ _ (generateBootKubeManifests_inv _ _ Hr)).
    rewrite <- map_app, map_as_fmap. now apply list_elem_of_fmap_2. }
  assert (Hdisk_ctl : disk !! kubeSysConfigPath = Some data).
  { destruct (persist_stores files ∅ ctl Hctl_in) as [d Hd].
    cbn [Filename ctl] in Hd. fold disk in Hd. rewrite Hd. f_equal.
    destruct (persist_lookup_inv _ _ _ _ Hd) as [(f & Hf & Hn & <-) | He].
    - now apply Hdata.
    - now rewrite lookup_empty in He. }
  destruct (disk_fetcher_spec disk "manifests/*.yaml") as (y1 & Hy1 & Hin1 & Hnd1).
  destruct (disk_fetcher_spec disk "manifests/*.yml") as (y2 & Hy2 & Hin2 & _).
  destruct (disk_fetcher_spec disk "manifests/*.json") as (j & Hj & Hin3 & _).
  assert (Hctl1 : ctl ∈ y1) by (apply Hin1; split; [exact Hdisk_ctl | reflexivity]).
  destruct (list_elem_of_split _ _ Hctl1) as (l1 & l2 & ->).
  assert (Hl12 : Forall (fun g => Filename g <> kubeSysConfigPath) l1
                 /\ Forall (fun g => Filename g <> kubeSysConfigPath) l2).
  { rewrite map_app in Hnd1. cbn [map] in Hnd1.
    apply NoDup_app in Hnd1 as (_ & Hdisj & Hnd2).
    apply NoDup_cons in Hnd2 as [Hnot _].
    split; apply Forall_forall; intros g Hg' Hn.
    - apply (Hdisj (Filename g)).
      + rewrite map_as_fmap. now apply list_elem_of_fmap_2.
      + rewrite Hn. apply elem_of_cons. now left.
    - apply Hnot. change (Filename ctl) with kubeSysConfigPath. rewrite <- Hn.
      rewrite map_as_fmap. now apply list_elem_of_fmap_2. }
  destruct Hl12 as [Hl1 Hl2].
  assert (Hother : Forall (fun g => Filename g <> kubeSysConfigPath) (l2 ++ y2 ++ j)).
  { apply Forall_app. split; [exact Hl2 |]. apply Forall_app.
    split; apply Forall_forall; intros g Hg' Hn.
    - apply Hin2 in Hg' as [_ Hmatch]. rewrite Hn in Hmatch. discriminate.
    - apply Hin3 in Hg' as [_ Hmatch]. rewrite Hn in Hmatch. discriminate. }
  exists (mkManifests (Some o) (SortFiles (((l1 ++ ctl :: l2) ++ y2) ++ j))).
  split; [| split].
  - load_fetches. fold disk. rewrite Hy1, Hy2, Hj.
    destruct (length (((l1 ++ ctl :: l2) ++ y2) ++ j) =? 0)%nat eqn:Elen.
    { apply Nat.eqb_eq in Elen. rewrite !List.length_app in Elen. cbn in Elen. lia. }
    replace (((l1 ++ ctl :: l2) ++ y2) ++ j) with (l1 ++ ctl :: (l2 ++ y2 ++ j))
      by (now rewrite <- !app_assoc).
    rewrite (load_scan_single l1 (l2 ++ y2 ++ j) ctl _ _ eq_refl Hl1 Hother).
    cbn [Data ctl]. rewrite Hyaml. reflexivity.
  - reflexivity.
  - intros name. cbn [FileList]. rewrite !map_as_fmap, !list_elem_of_fmap.
    setoid_rewrite SortFiles_perm at 1. split.
    + intros (f & -> & Hf).
      assert (Hd : disk !! Filename f = Some (Data f)).
      { apply elem_of_app in Hf as [Hf | Hf]; [| now apply Hin3 in Hf].
        apply elem_of_app in Hf as [Hf | Hf]; [now apply Hin1 in Hf |].
        now apply Hin2 in Hf. }
      destruct (persist_lookup_inv _ _ _ _ Hd) as [(g & Hg' & Hn & _) | He].
      * exists g. now split.
      * now rewrite lookup_empty in He.
    + intros (f & -> & Hf).
      destruct (persist_stores files ∅ f Hf) as [d Hd]. fold disk in Hd.
      exists (mkFile (Filename f) d). split; [reflexivity |].
      destruct (loadable_cases _ (Hnames f Hf)) as [Hp | [Hp | Hp]].
      * apply elem_of_app. left. apply elem_of_app. left. now apply Hin1.
      * apply elem_of_app. left. apply elem_of_app. right. now apply Hin2.
      * apply elem_of_app. right. now apply Hin3.
Qed.

End RoundTrip.

Lemma Generate_persist_Load_roundtrip_witness :
  exists m1 m2 : Manifests,
    @Generate demo.shape demo.yaml demo.template demo.consts
      demo.empty_manifests demo.parents = Returns (m1, None)
    /\ @Load demo.shape demo.yaml demo.empty_manifests
         (disk_fetcher (persist (FileList m1) ∅)) = (m2, (true, None))
    /\ KubeSysConfig m2 = KubeSysConfig m1.
Proof.
  destruct demo_Generate as (m1 & Hg & Hfiles).
  destruct (@Generate_persist_Load_roundtrip demo.shape demo.yaml demo.template
              demo.consts demo.empty_manifests demo.empty_manifests m1
              demo.parents Hg) as (m2 & Hl & Hk & _).
  - repeat constructor.
  - refine (bool_decide_unpack _ _). vm_compute. exact I.
  - intros o data Ho Hm.
    destruct (@Generate_success demo.shape demo.yaml demo.template demo.consts
                _ _ _ Hg) as (h' & rc & data' & rendered & _ & Hm' & _ & ->).
    cbn [KubeSysConfig] in Ho. injection Ho as <-.
    cbn in Hm. injection Hm as <-. cbn. rewrite lookup_singleton_eq. reflexivity.
  - exists m1, m2. split; [exact Hg |]. split; [exact Hl | exact Hk].
Defined.

(** * Further properties of [operators.go] *)

(** ** [Generate]: error paths, panics and the receiver *)

Section GenerateMore.
Context `{Y : YAML} `{T : TextTemplate} `{K : PackageConsts}.

(** X1: a [Generate] that returns an error has emitted no file: the
    receiver's file list is the one it had.  Either the redacted
    configuration could not be serialized, and the receiver is untouched, or
    the control object could not be serialized, and then the receiver's
    control object has already been replaced by the new one. *)
Theorem Generate_error_keeps_FileList (m m' : Manifests)
  (dependencies : Parents) (err : error) :
  Generate m dependencies = Returns (m', Some err) ->
  FileList m' = FileList m
  /\ ((exists cause : error,
         err = ErrWrap cause "failed to redact install-config" /\ m' = m)
      \/ (exists (cause : error) (redactedConfig : string),
            err = ErrWrap cause
                    "failed to create kube-system/cluster-config-v1 configmap"
            /\ yaml_Marshal_object
                 (configMap "kube-system" "cluster-config-v1"
                    {[ "install-config"%string := redactedConfig ]})
               = Err cause
            /\ KubeSysConfig m'
               = Some (configMap "kube-system" "cluster-config-v1"
                         {[ "install-config"%string := redactedConfig ]}))).
Proof.
  unfold Generate.
  destruct (redactedInstallConfig _ _) as [[h' [redactedConfig|e]]|p] eqn:Hr;
    cbn [mbind outcome_bind]; try discriminate.
  - destruct (yaml_Marshal_object _) as [data|e] eqn:Hm.
    + destruct (generateBootKubeManifests dependencies) as [rendered|p];
        cbn [mbind outcome_bind]; discriminate.
    + intros [= <- <-]. split; [reflexivity |]. right. eauto.
  - intros [= <- <-]. split; [reflexivity |]. left. eauto.
Qed.

(** X2: a successful [Generate] does not depend on what the receiver held
    before: the file list and the control object are replaced, not
    extended, so generating again gives the same receiver. *)
Theorem Generate_replaces_receiver (m m0 m' : Manifests)
  (dependencies : Parents) :
  Generate m dependencies = Returns (m', None) ->
  Generate m0 dependencies = Returns (m', None)
  /\ Generate m' dependencies = Returns (m', None).
Proof.
  intros Hg.
  destruct (Generate_success _ _ _ Hg)
    as (h' & rc & data & rendered & Hred & Hm & Hr & ->).
  assert (Hany : forall m1, Generate m1 dependencies
                            = Returns
                                (mkManifests
                                   (Some (configMap "kube-system" "cluster-config-v1"
                                            {[ "install-config"%string := rc ]}))
                                   (SortFiles
                                      (mkFile kubeSysConfigPath data
                                       :: rendered
                                          ++ collaborator_files dependencies)),
                                 None)).
  { intros m1. unfold Generate. rewrite Hred. cbn [mbind outcome_bind].
    rewrite Hm, Hr. cbn [mbind outcome_bind]. do 3 f_equal.
    unfold collaborator_files. cbn [map concat fold_left FileList KubeSysConfig].
    rewrite app_nil_r, <- !app_assoc. reflexivity. }
  split; apply Hany.
Qed.

Lemma render_asset_files_app (templateData : bootkubeTemplateData)
  (l1 l2 files : list File) :
  render_asset_files templateData (l1 ++ l2) files
  = render_asset_files templateData l1 files
    ≫= render_asset_files templateData l2.
Proof.
  revert files. induction l1 as [|f l1 IH]; intros files; [reflexivity |].
  cbn [app render_asset_files].
  destruct (applyTemplateData (Data f) templateData) as [data|p];
    cbn [mbind outcome_bind]; [apply IH | reflexivity].
Qed.

Lemma render_assets_concat (dependencies : Parents)
  (templateData : bootkubeTemplateData) (assets : list BootkubeAsset)
  (files : list File) :
  render_assets dependencies templateData assets files
  = render_asset_files templateData
      (concat (map (bootkube_Files dependencies) assets)) files.
Proof.
  revert files. induction assets as [|a assets IH]; intros files; [reflexivity |].
  cbn [render_assets map concat]. rewrite render_asset_files_app.
  destruct (render_asset_files templateData (bootkube_Files dependencies a) files);
    cbn [mbind outcome_bind]; [apply IH | reflexivity].
Qed.

Lemma render_asset_files_good (templateData : bootkubeTemplateData)
  (good files : list File) :
  Forall (fun f => exists buf, applyTemplateData (Data f) templateData
                               = Returns buf) good ->
  exists out : list File,
    render_asset_files templateData good files = Returns out.
Proof.
  intros Hgood. revert files.
  induction Hgood as [|f good [buf Hf] _ IH]; intros files; [now eexists |].
  cbn [render_asset_files]. rewrite Hf. cbn [mbind outcome_bind]. apply IH.
Qed.

(** X3: when the bundled template files up to some file render and that
    file is malformed for the template context, [generateBootKubeManifests]
    panics with that file's error, and so does a [Generate] whose redaction
    and control-object serialization succeeded: no file list is
    produced. *)
Theorem Generate_panics_on_first_malformed_template (m : Manifests)
  (dependencies : Parents) (good rest : list File) (bad : File) (err : error) :
  template_files dependencies = good ++ bad :: rest ->
  Forall (fun f => exists buf, applyTemplateData (Data f)
                                 (templateData_of dependencies) = Returns buf)
    good ->
  malformed (Data bad) (templateData_of dependencies) err ->
  generateBootKubeManifests dependencies = Panics (PanicError err)
  /\ (forall (h' : gmap addr VSpherePlatform)
             (redactedConfig kubeSysConfigData : string),
        redactedInstallConfig (store dependencies)
          (installConfig_Config dependencies) = Returns (h', Ok redactedConfig) ->
        yaml_Marshal_object
          (configMap "kube-system" "cluster-config-v1"
             {[ "install-config"%string := redactedConfig ]})
        = Ok kubeSysConfigData ->
        Generate m dependencies = Panics (PanicError err)).
Proof.
  intros Hfiles Hgood Hbad.
  assert (Hpanic : generateBootKubeManifests dependencies
                   = Panics (PanicError err)).
  { unfold generateBootKubeManifests. rewrite render_assets_concat.
    fold (template_files dependencies). rewrite Hfiles, render_asset_files_app.
    destruct (render_asset_files_good _ good [] Hgood) as [out ->].
    cbn [mbind outcome_bind render_asset_files].
    assert (Hb : applyTemplateData (Data bad) (templateData_of dependencies)
                 = Panics (PanicError err)).
    { unfold applyTemplateData.
      destruct Hbad as [Hp | (t & Hp & He)]; rewrite Hp;
        cbn [mbind outcome_bind]; [reflexivity | now rewrite He]. }
    now rewrite Hb. }
  split; [exact Hpanic |].
  intros h' rc data Hred Hm. unfold Generate.
  rewrite Hred. cbn [mbind outcome_bind]. rewrite Hm, Hpanic. reflexivity.
Qed.

End GenerateMore.

(** ** [Load]: the receiver and the fetched files *)

Section LoadMore.
Context `{Y : YAML}.

Lemma load_scan_found (fileList : list File) (o o' : configurationObject)
  (found : bool) :
  load_scan fileList o found = Ok (o', true) ->
  found = true \/ exists file : File,
                    file ∈ fileList /\ Filename file = kubeSysConfigPath.
Proof.
  revert o found. induction fileList as [|file files IH]; intros o found.
  - cbn. intros [= _ ->]. now left.
  - cbn [load_scan].
    destruct (String.eqb (Filename file) kubeSysConfigPath) eqn:E.
    + intros _. right. exists file. split; [apply elem_of_cons; now left |].
      now apply String.eqb_eq.
    + intros Hs. destruct (IH _ _ Hs) as [-> | (g & Hg & Hn)]; [now left |].
      right. exists g. split; [apply elem_of_cons; now right | exact Hn].
Qed.

Lemma load_scan_skip (before rest : list File) (o : configurationObject)
  (found : bool) :
  Forall (fun g => Filename g <> "manifests/cluster-config.yaml"%string) before ->
  load_scan (before ++ rest) o found = load_scan rest o found.
Proof.
  induction 1 as [|g before Hg _ IH]; [reflexivity |].
  assert (Hg' : String.eqb (Filename g) kubeSysConfigPath = false)
    by (apply String.eqb_neq; exact Hg).
  cbn [app load_scan]. rewrite Hg'. exact IH.
Qed.

(** X4: [Load] assigns to the receiver only when it reports found: on not
    found and on every error the receiver is the one passed in, and a found
    report never carries an error. *)
Theorem Load_touches_receiver_only_when_found (m m' : Manifests)
  (f : FileFetcher) (found : bool) (err : option error) :
  Load m f = (m', (found, err)) ->
  (found = false -> m' = m) /\ (found = true -> err = None).
Proof.
  load_fetches.
  destruct (f "manifests/*.yaml"%string) as [y1|e];
    [| intros [= <- <- <-]; split; [easy | discriminate]].
  destruct (f "manifests/*.yml"%string) as [y2|e];
    [| intros [= <- <- <-]; split; [easy | discriminate]].
  destruct (f "manifests/*.json"%string) as [j|e];
    [| intros [= <- <- <-]; split; [easy | discriminate]].
  destruct (length ((y1 ++ y2) ++ j) =? 0)%nat;
    [intros [= <- <- <-]; split; [easy | discriminate] |].
  destruct (load_scan _ _ _) as [[o fnd]|e];
    [| intros [= <- <- <-]; split; [easy | discriminate]].
  destruct fnd; cbn [negb];
    intros [= <- <- <-]; split; try easy; discriminate.
Qed.

(** X5: a [Load] that reports found keeps every fetched file, the control
    manifest and the unrelated ones alike: its file list is the three
    fetches put together and rearranged, one of these files has the control
    manifest's name, and nothing of the receiver's earlier state is left. *)
Theorem Load_found_keeps_every_fetched_file (m m' : Manifests)
  (f : FileFetcher) (err : option error) :
  Load m f = (m', (true, err)) ->
  exists yamlFileList ymlFileList jsonFileList : list File,
    f "manifests/*.yaml"%string = Ok yamlFileList
    /\ f "manifests/*.yml"%string = Ok ymlFileList
    /\ f "manifests/*.json"%string = Ok jsonFileList
    /\ FileList m' ≡ₚ yamlFileList ++ ymlFileList ++ jsonFileList
    /\ (exists file : File,
          file ∈ FileList m'
          /\ Filename file = "manifests/cluster-config.yaml"%string)
    /\ (forall m0 : Manifests, Load m0 f = (m', (true, None))).
Proof.
  intros Hl.
  destruct (Load_found _ _ _ _ Hl)
    as (y1 & y2 & j & o & H1 & H2 & H3 & Hscan & -> & ->).
  exists y1, y2, j. split; [exact H1 |]. split; [exact H2 |].
  split; [exact H3 |]. cbn [FileList]. split; [apply SortFiles_perm |]. split.
  - destruct (load_scan_found _ _ _ _ Hscan) as [? | (file & Hin & Hn)];
      [discriminate |].
    exists file. rewrite SortFiles_perm. split; [exact Hin | exact Hn].
  - intros m0. revert Hl. load_fetches. rewrite H1, H2, H3.
    destruct (length ((y1 ++ y2) ++ j) =? 0)%nat; [discriminate |].
    rewrite <- app_assoc, Hscan. cbn [negb]. intros _. reflexivity.
Qed.

(** X6: when the fetched files hold one control manifest and the parser
    rejects it, [Load] returns the parser's error wrapped with the control
    manifest's path, reports not found and leaves the receiver as it
    was. *)
Theorem Load_reports_unparsable_control_manifest (m : Manifests)
  (f : FileFetcher) (yamlFileList ymlFileList jsonFileList before after : list File)
  (control : File) (cause : error) :
  f "manifests/*.yaml"%string = Ok yamlFileList ->
  f "manifests/*.yml"%string = Ok ymlFileList ->
  f "manifests/*.json"%string = Ok jsonFileList ->
  yamlFileList ++ ymlFileList ++ jsonFileList = before ++ control :: after ->
  Filename control = "manifests/cluster-config.yaml"%string ->
  Forall (fun g => Filename g <> "manifests/cluster-config.yaml"%string) before ->
  yaml_Unmarshal_object (Data control) zero_configurationObject = Err cause ->
  Load m f
  = (m, (false,
         Some (ErrWrap cause
                 "failed to unmarshal manifests/cluster-config.yaml"))).
Proof.
  intros H1 H2 H3 Hsplit Hname Hbefore Hparse.
  load_fetches. rewrite H1, H2, H3, <- app_assoc, Hsplit.
  destruct (length (before ++ control :: after) =? 0)%nat eqn:Elen.
  { apply Nat.eqb_eq in Elen. rewrite List.length_app in Elen. cbn in Elen. lia. }
  rewrite load_scan_skip by exact Hbefore. cbn [load_scan]. rewrite Hname.
  change (String.eqb "manifests/cluster-config.yaml" kubeSysConfigPath)
    with true. cbn iota. rewrite Hparse. reflexivity.
Qed.

End LoadMore.

(** ** [redactedInstallConfig]: the store and already clean configurations *)

Section RedactMore.
Context `{Y : YAML}.

(** X7: the footprint of [redactedInstallConfig] on the store.  Without a
    vSphere platform the store is returned as it was; with one, exactly one
    record is added, at an address that was not in use, holding the
    platform with both credentials cleared, and the record at the caller's
    address is the one it was. *)
Theorem redactedInstallConfig_store_footprint
  (h h' : gmap addr VSpherePlatform) (config : InstallConfig)
  (r : result string) :
  redactedInstallConfig h config = Returns (h', r) ->
  match VSphere (Platform_ config) with
  | None => h' = h
  | Some a =>
      exists (p : VSpherePlatform) (a' : addr),
        h !! a = Some p
        /\ h !! a' = None
        /\ h' = <[a' := mkVSphere EmptyString EmptyString (vsphere_rest p)]> h
        /\ h' !! a = Some p
  end.
Proof.
  unfold redactedInstallConfig, load. cbn [VSphere Platform_].
  destruct (VSphere (Platform_ config)) as [a|].
  - destruct (h !! a) as [p|] eqn:Ha; cbn [mbind outcome_bind]; [| discriminate].
    cbn [Username Password vsphere_rest].
    destruct (value_of _ _) as [v|?]; cbn [mbind outcome_bind]; [| discriminate].
    intros [= <- _]. exists p, (fresh (dom h)).
    assert (Hfresh : h !! fresh (dom h) = None)
      by apply not_elem_of_dom, is_fresh.
    split; [reflexivity |]. split; [exact Hfresh |]. split; [reflexivity |].
    rewrite lookup_insert_ne; [exact Ha | congruence].
  - cbn [mbind outcome_bind].
    destruct (value_of _ _) as [v|?]; cbn [mbind outcome_bind]; [| discriminate].
    now intros [= <- _].
Qed.

(** X8: redaction changes nothing on a configuration that is already
    clean: with an empty pull secret and no vSphere credentials the result
    is the serialization of the configuration as it reads, and in general
    redacting a redacted value gives that value again. *)
Theorem redactedInstallConfig_idempotent
  (h : gmap addr VSpherePlatform) (config : InstallConfig)
  (v : InstallConfigValue) :
  value_of h config = Returns v ->
  redacted_value (redacted_value v) = redacted_value v
  /\ (PullSecretValue v = EmptyString ->
      (forall p : VSpherePlatform,
         VSphereValue (PlatformValue_ v) = Some p ->
         Username p = EmptyString /\ Password p = EmptyString) ->
      exists h' : gmap addr VSpherePlatform,
        redactedInstallConfig h config
        = Returns (h', yaml_Marshal_InstallConfig v)).
Proof.
  intros Hv. split.
  - unfold redacted_value. cbn.
    destruct (VSphereValue (PlatformValue_ v)); reflexivity.
  - intros Hps Hcreds.
    destruct (redactedInstallConfig_run h config v Hv) as (h' & Hrun & _).
    exists h'. rewrite Hrun. do 3 f_equal.
    destruct v as [ps pub ics [vs prest] crest]. cbn in *. subst ps.
    unfold redacted_value. cbn. do 2 f_equal.
    destruct vs as [[u pw vrest]|]; [| reflexivity].
    destruct (Hcreds _ eq_refl) as [Hu Hp]. cbn in *. now subst.
Qed.

End RedactMore.

(** ** The template helpers [indent] and [add] *)

Lemma repeat_nat_add (s : string) (a b : nat) :
  strings.repeat_nat s (a + b)
  = strings.repeat_nat s a +:+ strings.repeat_nat s b.
Proof.
  induction a as [|a IH]; [reflexivity |].
  cbn [Nat.add strings.repeat_nat]. now rewrite IH, app_assoc_s.
Qed.

Lemma concat_lines_spaces (sep : string) (k : nat) (s : string) :
  String.concat sep (lines (strings.repeat_nat strings.space k +:+ s))
  = strings.repeat_nat strings.space k +:+ String.concat sep (lines s).
Proof.
  induction k as [|k IH]; [reflexivity |].
  cbn [strings.repeat_nat]. unfold strings.space at 1 3.
  rewrite !app_cons, !app_nil, concat_lines_cons by reflexivity.
  now rewrite IH.
Qed.

Lemma indent_twice_nat (a b : nat) (s : string) :
  String.concat (strings.newline +:+ strings.repeat_nat strings.space b)
    (lines (String.concat
              (strings.newline +:+ strings.repeat_nat strings.space a)
              (lines s)))
  = String.concat (strings.newline +:+ strings.repeat_nat strings.space (a + b))
      (lines s).
Proof.
  induction s as [|c s IH]; [reflexivity |].
  destruct (Ascii.eqb c strings.LF) eqn:Ec.
  - apply Ascii.eqb_eq in Ec. subst c.
    rewrite !(concat_lines_break _ s).
    unfold strings.newline at 2. rewrite !app_cons, !app_nil.
    rewrite concat_lines_break, concat_lines_spaces, IH.
    unfold strings.newline. rewrite !app_cons, !app_nil. f_equal.
    rewrite <- !app_assoc_s. f_equal.
    rewrite <- repeat_nat_add. f_equal. lia.
  - rewrite !(concat_lines_cons _ c s) by exact Ec.
    rewrite concat_lines_cons by exact Ec. now rewrite IH.
Qed.

(** X9: for non-negative widths, indenting an indented text adds the
    widths: [indent n2] applied to the result of [indent n1] is
    [indent (n1 + n2)], and [indent 0] returns the text itself. *)
Theorem indent_composes (n1 n2 : Z) (text : string) :
  0 <= n1 -> 0 <= n2 ->
  (indent n1 text ≫= indent n2) = indent (n1 + n2) text
  /\ indent 0 text = Returns text.
Proof.
  intros H1 H2. split.
  - rewrite (indent_nonneg n1), (indent_nonneg (n1 + n2)) by lia.
    cbn [mbind outcome_bind]. rewrite (indent_nonneg n2) by lia. f_equal.
    unfold indent_separator. rewrite Z2Nat.inj_add by lia.
    apply indent_twice_nat.
  - rewrite indent_nonneg by lia. f_equal. apply concat_lines_newline.
Qed.

Lemma indent_composes_witness :
  (indent 2 ("a" +:+ strings.newline +:+ "b") ≫= indent 1)
  = Returns ("a" +:+ strings.newline +:+ "   b")%string.
Proof.
  rewrite (proj1 (indent_composes 2 1 ("a" +:+ strings.newline +:+ "b")
                    ltac:(lia) ltac:(lia))).
  reflexivity.
Defined.

(** X10: [add] on two Go ints is the sum when the sum fits in 64 bits and
    wraps around otherwise: the result is always a 64-bit int that differs
    from the sum by a multiple of 2^64, it is 2^64 less than a sum past the
    largest int and 2^64 more than a sum below the smallest. *)
Theorem add_wraps_around (i j : Z) :
  - 2 ^ 63 <= i < 2 ^ 63 -> - 2 ^ 63 <= j < 2 ^ 63 ->
  - 2 ^ 63 <= add i j < 2 ^ 63
  /\ (- 2 ^ 63 <= i + j < 2 ^ 63 -> add i j = i + j)
  /\ (2 ^ 63 <= i + j -> add i j = i + j - 2 ^ 64)
  /\ (i + j < - 2 ^ 63 -> add i j = i + j + 2 ^ 64)
  /\ add i j = add j i.
Proof.
  intros Hi Hj. unfold add, wrap_int.
  change (2 ^ 63) with 9223372036854775808 in *.
  change (2 ^ 64) with 18446744073709551616 in *.
  rewrite (Z.add_comm j i).
  repeat split; intros; Z.div_mod_to_equations; lia.
Qed.

Lemma add_wraps_around_witness :
  add (2 ^ 63 - 1) 1 = - 2 ^ 63 /\ add (- 2 ^ 63) (-1) = 2 ^ 63 - 1
  /\ add 40 2 = 42.
Proof.
  destruct (add_wraps_around (2 ^ 63 - 1) 1) as (_ & _ & Hover & _);
    [lia | lia |].
  destruct (add_wraps_around (- 2 ^ 63) (-1)) as (_ & _ & _ & Hunder & _);
    [lia | lia |].
  destruct (add_wraps_around 40 2) as (_ & Hfit & _); [lia | lia |].
  split; [rewrite Hover by lia; reflexivity |].
  split; [rewrite Hunder by lia; reflexivity | apply Hfit; lia].
Defined.

(** ** The names of rendered template files *)

Lemma split_no_separator (s : string) :
  all_bytes (fun c => negb (Ascii.eqb c filepath.Separator)) s = true ->
  filepath.split s = [s].
Proof.
  induction s as [|c s IH]; [reflexivity |].
  cbn [all_bytes filepath.split]. intros [Hc Hs]%andb_true_iff.
  apply negb_true_iff in Hc. rewrite Hc, (IH Hs). reflexivity.
Qed.

Lemma split_nonempty (s : string) : filepath.split s <> [].
Proof.
  destruct s as [|c s]; cbn [filepath.split]; [discriminate |].
  destruct (Ascii.eqb c filepath.Separator); [discriminate |].
  destruct (filepath.split s); discriminate.
Qed.

Lemma last_split_cons (c : ascii) (s : string) :
  (2 <= length (filepath.split s))%nat ->
  (2 <= length (filepath.split (String c s)))%nat
  /\ List.last (filepath.split (String c s)) EmptyString
     = List.last (filepath.split s) EmptyString.
Proof.
  intros Hlen. cbn [filepath.split].
  destruct (Ascii.eqb c filepath.Separator).
  - split; [cbn; lia |].
    destruct (filepath.split s) as [|e es]; [cbn in Hlen; lia | reflexivity].
  - destruct (filepath.split s) as [|e [|e' es]]; cbn in Hlen; try lia.
    split; [cbn; lia | reflexivity].
Qed.

Lemma last_split_dir (dir base : string) :
  all_bytes (fun c => negb (Ascii.eqb c filepath.Separator)) base = true ->
  (2 <= length (filepath.split (dir +:+ String filepath.Separator base)))%nat
  /\ List.last (filepath.split (dir +:+ String filepath.Separator base))
       EmptyString = base.
Proof.
  intros Hbase. induction dir as [|c dir [IHlen IHlast]].
  - rewrite app_nil. cbn [filepath.split]. rewrite Ascii.eqb_refl.
    rewrite (split_no_separator base Hbase). split; [cbn; lia | reflexivity].
  - rewrite app_cons.
    destruct (last_split_cons c _ IHlen) as [Hlen Hlast].
    split; [exact Hlen | now rewrite Hlast].
Qed.

Lemma strip_trailing_base (base : string) :
  base <> EmptyString ->
  all_bytes (fun c => negb (Ascii.eqb c filepath.Separator)) base = true ->
  filepath.strip_trailing base = base.
Proof.
  induction base as [|c base IH]; [congruence |].
  intros _. cbn [all_bytes filepath.strip_trailing].
  intros [Hc Hs]%andb_true_iff. apply negb_true_iff in Hc.
  destruct base as [|d base].
  - cbn. now rewrite Hc.
  - rewrite IH by (congruence || exact Hs). reflexivity.
Qed.

Lemma strip_trailing_app (dir base : string) :
  base <> EmptyString ->
  all_bytes (fun c => negb (Ascii.eqb c filepath.Separator)) base = true ->
  filepath.strip_trailing (dir +:+ base) = dir +:+ base.
Proof.
  intros Hne Hbase. induction dir as [|c dir IH].
  - rewrite app_nil. now apply strip_trailing_base.
  - rewrite app_cons. cbn [filepath.strip_trailing]. rewrite IH.
    destruct (dir +:+ base) eqn:E; [| reflexivity].
    destruct dir; [rewrite app_nil in E; congruence | discriminate].
Qed.

Lemma Base_in_directory (dir base : string) :
  base <> EmptyString ->
  all_bytes (fun c => negb (Ascii.eqb c filepath.Separator)) base = true ->
  filepath.Base (dir +:+ String filepath.Separator base) = base
  /\ filepath.Base base = base.
Proof.
  intros Hne Hbase. unfold filepath.Base. split.
  - destruct (String.eqb (dir +:+ String filepath.Separator base) "") eqn:E.
    { apply String.eqb_eq in E. destruct dir; discriminate. }
    change (String filepath.Separator base)
      with (String filepath.Separator EmptyString +:+ base).
    rewrite <- app_assoc_s, strip_trailing_app by assumption.
    rewrite app_assoc_s.
    change (String filepath.Separator EmptyString +:+ base)
      with (String filepath.Separator base).
    rewrite (proj2 (last_split_dir dir base Hbase)).
    apply String.eqb_neq in Hne. now rewrite Hne.
  - pose proof Hne as Hne'. apply String.eqb_neq in Hne'. rewrite Hne'.
    rewrite strip_trailing_base, split_no_separator by assumption.
    cbn [List.last]. now rewrite Hne'.
Qed.

Lemma substring_app_l (x y : string) :
  String.substring 0 (String.length x) (x +:+ y) = x.
Proof.
  induction x as [|c x IH]; [now destruct y |].
  rewrite app_cons. cbn. now rewrite IH.
Qed.

Lemma substring_app_r (x y : string) :
  String.substring (String.length x) (String.length y) (x +:+ y) = y.
Proof.
  induction x as [|c x IH]; [| rewrite app_cons; exact IH].
  rewrite app_nil. cbn [String.length].
  induction y as [|d y IHy]; [reflexivity | cbn; now rewrite IHy].
Qed.

Lemma TrimSuffix_app (stem suffix : string) :
  strings.TrimSuffix (stem +:+ suffix) suffix = stem.
Proof.
  unfold strings.TrimSuffix, strings.HasSuffix. rewrite length_app.
  replace (String.length stem + String.length suffix - String.length suffix)%nat
    with (String.length stem) by lia.
  rewrite substring_app_r, String.eqb_refl, substring_app_l.
  replace (String.length suffix <=? String.length stem + String.length suffix)%nat
    with true by (symmetry; apply Nat.leb_le; lia).
  reflexivity.
Qed.

Lemma all_bytes_template_suffix (stem : string) :
  all_bytes (fun c => negb (Ascii.eqb c filepath.Separator)) stem = true ->
  all_bytes (fun c => negb (Ascii.eqb c filepath.Separator))
    (stem +:+ ".template") = true.
Proof. intros Hs. now rewrite all_bytes_app, Hs. Qed.

Lemma Join_manifests (name : string) :
  plain_name name ->
  filepath.Join [manifestDir; name] = ("manifests/" +:+ name)%string.
Proof.
  intros (Hne & Hdot & Hdots & Hsep).
  apply String.eqb_neq in Hne, Hdot, Hdots.
  unfold filepath.Join, filepath.Clean, strings.Join, manifestDir.
  cbn [String.eqb Ascii.eqb Bool.eqb String.concat].
  change ("manifests" +:+ "/" +:+ name)%string with ("manifests/" +:+ name)%string.
  change (String.prefix "/" ("manifests/" +:+ name)%string) with false.
  change (filepath.split ("manifests/" +:+ name)%string)
    with ("manifests"%string :: filepath.split name).
  rewrite (split_no_separator name Hsep).
  cbn [fold_left]. unfold filepath.clean_step at 2.
  cbn [String.eqb Ascii.eqb Bool.eqb orb].
  unfold filepath.clean_step. rewrite Hne, Hdot, Hdots.
  cbn [orb rev app String.concat]. reflexivity.
Qed.

(** X11: a bundled template whose base name is a plain file name is filed
    directly under [manifests/] with its [.template] suffix removed; the
    directories of the template's own path are dropped, and a file without
    the suffix keeps its base name.  Two bundled files that differ only in
    their directory or in the suffix are therefore filed under one name. *)
Theorem rendered_name_of_plain_template (dir stem data : string) :
  plain_name stem ->
  rendered_name (mkFile (stem +:+ ".template") data)
  = ("manifests/" +:+ stem)%string
  /\ rendered_name (mkFile (dir +:+ "/" +:+ stem +:+ ".template") data)
     = ("manifests/" +:+ stem)%string
  /\ (strings.HasSuffix stem ".template" = false ->
      rendered_name (mkFile (dir +:+ "/" +:+ stem) data)
      = ("manifests/" +:+ stem)%string
      /\ rendered_name (mkFile stem data) = ("manifests/" +:+ stem)%string).
Proof.
  intros Hplain. pose proof Hplain as (Hne & _ & _ & Hsep).
  assert (Hne' : stem +:+ ".template" <> EmptyString)
    by (destruct stem; discriminate).
  pose proof (all_bytes_template_suffix stem Hsep) as Hsep'.
  unfold rendered_name. cbn [Filename].
  change ("/" +:+ stem +:+ ".template")%string
    with (String filepath.Separator (stem +:+ ".template")).
  change ("/" +:+ stem)%string with (String filepath.Separator stem).
  destruct (Base_in_directory dir _ Hne' Hsep') as [Hb1 Hb2].
  destruct (Base_in_directory dir _ Hne Hsep) as [Hb3 Hb4].
  rewrite Hb1, Hb2, Hb3, Hb4, TrimSuffix_app.
  split; [now apply Join_manifests |]. split; [now apply Join_manifests |].
  intros Hsuffix. unfold strings.TrimSuffix. rewrite Hsuffix.
  split; now apply Join_manifests.
Qed.

Lemma rendered_name_of_plain_template_witness :
  rendered_name (mkFile "bootkube/manifests/cvo-overrides.yaml.template" "a")
  = "manifests/cvo-overrides.yaml"%string
  /\ rendered_name (mkFile "bootkube/manifests/cvo-overrides.yaml" "b")
     = "manifests/cvo-overrides.yaml"%string.
Proof.
  assert (Hplain : plain_name "cvo-overrides.yaml").
  { repeat split; discriminate. }
  destruct (rendered_name_of_plain_template "bootkube/manifests"
              "cvo-overrides.yaml" "a" Hplain) as (_ & Htpl & _).
  destruct (rendered_name_of_plain_template "bootkube/manifests"
              "cvo-overrides.yaml" "b" Hplain) as (_ & _ & Hraw).
  split; [exact Htpl | exact (proj1 (Hraw eq_refl))].
Defined.

(** ** The template context and the key material *)

Section ContextMore.
Context `{H : ConfigShape}.

(** X12: no key or certificate is altered on its way into the template
    context: each of the ten base64 fields decodes to the bytes of the TLS
    asset it was built from, and the three bundle fields are the
    certificates themselves. *)
Theorem templateData_keeps_key_material (dependencies : Parents) :
  let td := templateData_of dependencies in
  let cert := tls_Cert dependencies in
  let key := tls_Key dependencies in
  base64.DecodeString (EtcdMetricSignerCert td) = Some (cert EtcdMetricSignerCertKey)
  /\ base64.DecodeString (EtcdMetricSignerClientCert td)
     = Some (cert EtcdMetricSignerClientCertKey)
  /\ base64.DecodeString (EtcdMetricSignerClientKey td)
     = Some (key EtcdMetricSignerClientCertKey)
  /\ base64.DecodeString (EtcdMetricSignerKey td)
     = Some (key EtcdMetricSignerCertKey)
  /\ base64.DecodeString (EtcdSignerCert td) = Some (cert EtcdSignerCertKey)
  /\ base64.DecodeString (EtcdSignerClientCert td)
     = Some (cert EtcdSignerClientCertKey)
  /\ base64.DecodeString (EtcdSignerClientKey td)
     = Some (key EtcdSignerClientCertKey)
  /\ base64.DecodeString (EtcdSignerKey td) = Some (key EtcdSignerCertKey)
  /\ base64.DecodeString (McsTLSCert td) = Some (cert MCSCertKey)
  /\ base64.DecodeString (McsTLSKey td) = Some (key MCSCertKey)
  /\ EtcdCaBundle td = cert EtcdCABundle
  /\ EtcdMetricCaCert td = cert EtcdMetricCABundle
  /\ RootCaCert td = cert RootCA.
Proof.
  cbn zeta. unfold templateData_of. cbn [EtcdMetricSignerCert
    EtcdMetricSignerClientCert EtcdMetricSignerClientKey EtcdMetricSignerKey
    EtcdSignerCert EtcdSignerClientCert EtcdSignerClientKey EtcdSignerKey
    McsTLSCert McsTLSKey EtcdCaBundle EtcdMetricCaCert RootCaCert].
  repeat (split; [apply DecodeString_EncodeToString |]).
  repeat split.
Qed.

End ContextMore.

(** ** Path parameters of a request builder *)

Lemma map_fold_copy (src : gmap string string) :
  map_fold (fun idx item (acc : gmap string string) => <[idx := item]> acc)
    ∅ src = src.
Proof.
  apply (map_fold_weak_ind (fun acc m => acc = m)); [reflexivity |].
  intros i x m r _ ->. reflexivity.
Qed.

(** X13: a [By...Id] method never changes the path parameters of the
    builder it is called on: it allocates a new map at an unused address,
    and every map already in the store, the builder's own included, is the
    one it was.  The new map is the builder's parameters with the id stored
    under the item's key, replacing an entry of that key, or just a copy of
    the parameters when the id is empty. *)
Theorem withItemId_copies_path_parameters (key : string)
  (st : gmap addr (gmap string string)) (p : addr)
  (params : gmap string string) (id : string) :
  st !! p = Some params ->
  exists (st' : gmap addr (gmap string string)) (a : addr),
    msgraph.withItemId key st (Some p) id = Returns (st', a)
    /\ st !! a = None
    /\ st' !! p = Some params
    /\ (forall q : addr, q <> a -> st' !! q = st !! q)
    /\ st' !! a
       = Some (if String.eqb id "" then params else <[key := id]> params)
    /\ (forall k : string,
          (if String.eqb id "" then params else <[key := id]> params) !! k
          = if negb (String.eqb id "") && bool_decide (k = key)
            then Some id else params !! k).
Proof.
  intros Hp. unfold msgraph.withItemId, msgraph.read_map. rewrite Hp.
  cbn [mbind outcome_bind]. rewrite map_fold_copy.
  assert (Hfresh : st !! fresh (dom st) = None)
    by apply not_elem_of_dom, is_fresh.
  eexists _, _. split; [reflexivity |]. split; [exact Hfresh |].
  split; [rewrite lookup_insert_ne; [exact Hp | congruence] |].
  split; [intros q Hq; now rewrite lookup_insert_ne |].
  split.
  - rewrite lookup_insert_eq. now destruct (String.eqb id "").
  - intros k. destruct (String.eqb id ""); cbn [negb andb]; [reflexivity |].
    destruct (bool_decide (k = key)) eqn:Ek.
    + apply bool_decide_eq_true in Ek. subst k. apply lookup_insert_eq.
    + apply bool_decide_eq_false in Ek. now apply lookup_insert_ne.
Qed.

Lemma withItemId_copies_path_parameters_witness :
  exists (st' : gmap addr (gmap string string)) (a : addr),
    msgraph.ByConversationMemberId demo2.maps (Some 0%nat) "m7"
    = Returns (st', a)
    /\ st' !! 0%nat = Some demo2.params
    /\ st' !! a
       = Some (<[ "conversationMember%2Did"%string := "m7"%string ]> demo2.params).
Proof.
  destruct (withItemId_copies_path_parameters "conversationMember%2Did"
              demo2.maps 0%nat demo2.params "m7")
    as (st' & a & Hrun & _ & Hparent & _ & Hchild & _);
    [apply lookup_singleton_eq |].
  exists st', a. split; [exact Hrun |]. split; [exact Hparent | exact Hchild].
Defined.

(** ** The further properties on the small installation *)

Lemma Generate_error_keeps_FileList_witness :
  exists m' : Manifests,
    @Generate demo.shape demo2.yaml_failing demo.template demo.consts
      (mkManifests None [mkFile "manifests/old.yaml" "old"]) demo.parents
    = Returns (m', Some (ErrWrap (ErrNew "cannot marshal")
                           "failed to create kube-system/cluster-config-v1 configmap"))
    /\ FileList m' = [mkFile "manifests/old.yaml" "old"].
Proof.
  assert (Hrun : exists m' : Manifests,
            @Generate demo.shape demo2.yaml_failing demo.template demo.consts
              (mkManifests None [mkFile "manifests/old.yaml" "old"]) demo.parents
            = Returns (m', Some (ErrWrap (ErrNew "cannot marshal")
                                   "failed to create kube-system/cluster-config-v1 configmap")))
    by (eexists; vm_compute; reflexivity).
  destruct Hrun as [m' Hrun]. exists m'. split; [exact Hrun |].
  exact (proj1 (@Generate_error_keeps_FileList demo.shape demo2.yaml_failing
                  demo.template demo.consts _ _ _ _ Hrun)).
Defined.

Lemma Generate_replaces_receiver_witness :
  exists m' : Manifests,
    @Generate demo.shape demo.yaml demo.template demo.consts
      (mkManifests None [mkFile "manifests/old.yaml" "old"]) demo.parents
    = Returns (m', None)
    /\ length (FileList m') = 5%nat.
Proof.
  destruct demo_Generate as (m' & Hg & Hfiles). exists m'.
  split; [| now rewrite Hfiles].
  exact (proj1 (@Generate_replaces_receiver demo.shape demo.yaml demo.template
                  demo.consts demo.empty_manifests
                  (mkManifests None [mkFile "manifests/old.yaml" "old"])
                  m' demo.parents Hg)).
Defined.

Lemma Generate_panics_on_first_malformed_template_witness :
  @Generate demo.shape demo.yaml demo.template demo.consts demo.empty_manifests
    (demo.parents_with demo2.bootkube_bad demo.collaborators)
  = Panics (PanicError (ErrNew "unclosed action")).
Proof.
  destruct (@Generate_panics_on_first_malformed_template demo.shape demo.yaml
              demo.template demo.consts demo.empty_manifests
              (demo.parents_with demo2.bootkube_bad demo.collaborators)
              [mkFile "etcd-namespace.yaml" "etcd"] []
              (mkFile "openshift-config-secret-pull-secret.yaml.template" "{{")
              (ErrNew "unclosed action")) as [_ Hpanic].
  - reflexivity.
  - repeat constructor. eexists. vm_compute. reflexivity.
  - left. reflexivity.
  - eapply Hpanic; vm_compute; reflexivity.
Defined.

Lemma Load_touches_receiver_only_when_found_witness :
  @Load demo.shape demo.yaml (mkManifests None [mkFile "manifests/old.yaml" "old"])
    demo.unrelated_fetcher
  = (mkManifests None [mkFile "manifests/old.yaml" "old"], (false, None)).
Proof.
  destruct (@Load demo.shape demo.yaml
              (mkManifests None [mkFile "manifests/old.yaml" "old"])
              demo.unrelated_fetcher) as [m' [found err]] eqn:El.
  destruct (@Load_touches_receiver_only_when_found demo.shape demo.yaml
              _ _ _ _ _ El) as [Hkeep _].
  assert (Hres : found = false /\ err = None).
  { vm_compute in El. injection El as _ <- <-. split; reflexivity. }
  destruct Hres as [-> ->]. now rewrite (Hkeep eq_refl).
Defined.

Lemma Load_found_keeps_every_fetched_file_witness :
  exists m' : Manifests,
    @Load demo.shape demo.yaml demo.empty_manifests demo2.stored_fetcher
    = (m', (true, None))
    /\ FileList m' ≡ₚ [mkFile "manifests/a.yaml" "a";
                       mkFile "manifests/cluster-config.yaml" "cfg"].
Proof.
  assert (Hrun : exists m' : Manifests,
            @Load demo.shape demo.yaml demo.empty_manifests demo2.stored_fetcher
            = (m', (true, None)))
    by (eexists; vm_compute; reflexivity).
  destruct Hrun as [m' Hrun]. exists m'. split; [exact Hrun |].
  destruct (@Load_found_keeps_every_fetched_file demo.shape demo.yaml
              _ _ _ _ Hrun) as (y1 & y2 & j & H1 & H2 & H3 & Hperm & _).
  injection H1 as <-. injection H2 as <-. injection H3 as <-. exact Hperm.
Defined.

Lemma Load_reports_unparsable_control_manifest_witness :
  @Load demo.shape demo2.yaml_failing demo.empty_manifests demo2.stored_fetcher
  = (demo.empty_manifests,
     (false,
      Some (ErrWrap (ErrNew "cannot unmarshal")
              "failed to unmarshal manifests/cluster-config.yaml"))).
Proof.
  apply (@Load_reports_unparsable_control_manifest demo.shape
           demo2.yaml_failing demo.empty_manifests demo2.stored_fetcher
           [mkFile "manifests/a.yaml" "a";
            mkFile "manifests/cluster-config.yaml" "cfg"] [] []
           [mkFile "manifests/a.yaml" "a"] []
           (mkFile "manifests/cluster-config.yaml" "cfg"));
    try reflexivity.
  repeat constructor. discriminate.
Defined.

Lemma redactedInstallConfig_store_footprint_witness :
  exists (h' : gmap addr VSpherePlatform) (r : result string),
    @redactedInstallConfig demo.shape demo.yaml {[ 0%nat := demo.vsphere ]}
      demo.config = Returns (h', r)
    /\ h' !! 0%nat = Some demo.vsphere.
Proof.
  assert (Hrun : exists (h' : gmap addr VSpherePlatform) (r : result string),
            @redactedInstallConfig demo.shape demo.yaml
              {[ 0%nat := demo.vsphere ]} demo.config = Returns (h', r))
    by (eexists _, _; vm_compute; reflexivity).
  destruct Hrun as (h' & r & Hrun). exists h', r. split; [exact Hrun |].
  pose proof (@redactedInstallConfig_store_footprint demo.shape demo.yaml
                _ _ _ _ Hrun) as Hfoot.
  cbn in Hfoot. destruct Hfoot as (p & a' & Hp & _ & _ & Hkeep).
  rewrite lookup_singleton_eq in Hp. injection Hp as <-. exact Hkeep.
Defined.

Lemma redactedInstallConfig_idempotent_witness :
  exists h' : gmap addr VSpherePlatform,
    @redactedInstallConfig demo.shape demo.yaml ∅ demo2.clean_config
    = Returns (h', Ok ("pullSecret: []" +:+ nl +:+ "publish: External" +:+ nl)%string).
Proof.
  destruct (@redactedInstallConfig_idempotent demo.shape demo.yaml ∅
              demo2.clean_config
              (@mkInstallConfigValue demo.shape "" "External" []
                 (@mkPlatformValue demo.shape None tt) tt) eq_refl)
    as [_ Hclean].
  destruct Hclean as [h' Hrun]; [reflexivity | discriminate |].
  exists h'. exact Hrun.
Defined.
